(** * VASCO: the paired matcher (Counselor) and the calibration boundary

    A shallow embedding of [src/matchers/counselor.py] and of the parameter
    boundary of [src/mainwindow.py] ([getConstantsTuple], [minimize], [pair]).

    Conventions of the embedding.
    - A float64 scalar is idealised as a real number ([R]); rounding is
      outside that model. Where a statement would rest on exact
      arithmetic, the scalar functions are given on binary64 numbers as
      well ([Float64]), and the statement says what the floats do.
    - An [np.ndarray] of shape (N, 2) is a list of rows ([R * R]); an array
      of shape (N) is a list of scalars.
    - numpy arrays that a caller can observe live in a [Store] indexed by
      references, so that in-place assignment and aliasing are visible.
    - Python exceptions are the [Raise] outcome of the [Py] monad; the store
      reached when the exception is raised is kept. *)

From Stdlib Require Import Floats.
From Stdlib Require Import Reals Lra Lia List Bool String.
From stdpp Require Import base option list gmap strings.

Local Open Scope R_scope.

(** ** numpy: scalars, rows, broadcasting *)

Module Numpy.

(** A row of a (N, 2) array: column 0 and column 1. *)
Abbreviation row := (R * R)%type.

(** [np.ndarray(N, 2)]. *)
Abbreviation ndarray := (list (R * R)).

(** [np.ndarray(N)]. *)
Abbreviation vector := (list R).

(** [np.pi]. *)
Definition pi : R := PI.

(** [np.radians] on a scalar. *)
Definition radians (x : R) : R := x * (PI / 180).

(** [np.degrees] on a scalar. *)
Definition degrees (x : R) : R := x * (180 / PI).

Definition radians_row (p : row) : row := (radians (fst p), radians (snd p)).

(** [np.radians] on a (N, 2) array: element-wise, a new array. *)
Definition radians_arr (a : ndarray) : ndarray := map radians_row a.

(** Right-hand side of [a[..., 0] = np.pi / 2 - a[..., 0]]: column 0 is
    replaced, column 1 is kept. *)
Definition co_altitude (p : row) : row := (pi / 2 - fst p, snd p).

Definition co_altitude_arr (a : ndarray) : ndarray := map co_altitude a.

(** Row-wise sum of two rows. *)
Definition row_add (p q : row) : row := (fst p + fst q, snd p + snd q).

(** Row-wise combination of two arrays of equal length. *)
Fixpoint map2 {A B C : Type} (f : A -> B -> C) (xs : list A) (ys : list B) : list C :=
  match xs, ys with
  | x :: xs', y :: ys' => f x y :: map2 f xs' ys'
  | _, _ => []
  end.

(** numpy broadcasting along the leading axis of two arrays whose trailing
    axes agree: lengths must be equal, or one of them is 1; any other pair
    of shapes is a [ValueError] ([None] here). *)
Definition broadcast {A B C : Type} (f : A -> B -> C)
           (xs : list A) (ys : list B) : option (list C) :=
  if Nat.eqb (length xs) (length ys) then Some (map2 f xs ys)
  else match xs, ys with
       | [x], _ => Some (map (f x) ys)
       | _, [y] => Some (map (fun x => f x y) xs)
       | _, _ => None
       end.

End Numpy.

(** ** numpy on binary64 numbers *)

Module Float64.

(** [np.pi], the binary64 number nearest to pi. *)
Definition pi : float := 0x1.921fb54442d18p+1%float.

(** [np.radians] on a float64 scalar: the product with [pi / 180]. *)
Definition radians (x : float) : float := (x * (pi / 180))%float.

(** [np.degrees] on a float64 scalar: the product with [180 / pi]. *)
Definition degrees (x : float) : float := (x * (180 / pi))%float.

(** Right-hand side of [a[..., 0] = np.pi / 2 - a[..., 0]] on a scalar. *)
Definition co_altitude (x : float) : float := (pi / 2 - x)%float.

End Float64.

(** ** Python outcomes and the array store *)

Module Py.

Inductive exn : Type :=
| AssertionError
| TypeError
| ValueError
| NameError.

Inductive outcome (A : Type) : Type :=
| Return (a : A)
| Raise (e : exn).
Arguments Return {A} a.
Arguments Raise {A} e.

(** A computation over a mutable state [St] returns or raises; the state
    reached at a [Raise] is the one the handler would see. *)
Definition M (St A : Type) : Type := St -> St * outcome A.

Definition ret {St A : Type} (a : A) : M St A := fun s => (s, Return a).

Definition raise {St A : Type} (e : exn) : M St A := fun s => (s, Raise e).

Definition bind {St A B : Type} (m : M St A) (k : A -> M St B) : M St B :=
  fun s => match m s with
           | (s', Return a) => k a s'
           | (s', Raise e) => (s', Raise e)
           end.

(** [assert b]. *)
Definition assert {St : Type} (b : bool) : M St unit :=
  if b then ret tt else raise AssertionError.

(** A state update that cannot fail. *)
Definition modify {St : Type} (f : St -> St) : M St unit :=
  fun s => (f s, Return tt).

(** A library call that returns a value or raises [ValueError]. *)
Definition of_option {St A : Type} (o : option A) : M St A :=
  match o with
  | Some a => ret a
  | None => raise ValueError
  end.

(** A reference to a numpy array object. *)
Abbreviation ref := positive.

(** The arrays of the process, by reference. *)
Abbreviation Store := (gmap positive Numpy.ndarray).

(** The array a reference points to. *)
Definition read (r : ref) : M Store Numpy.ndarray :=
  fun s => match s !! r with
           | Some a => (s, Return a)
           | None => (s, Raise NameError)
           end.

(** In-place assignment to the array behind a reference. *)
Definition write (r : ref) (a : Numpy.ndarray) : M Store unit :=
  modify (fun s => <[r := a]> s).

(** A new array object, at a reference not in use. *)
Definition alloc (a : Numpy.ndarray) : M Store ref :=
  fun s => let r := fresh (dom s) in (<[r := a]> s, Return r).

End Py.

Notation "'let*' x ':=' m 'in' k" := (Py.bind m (fun x => k))
  (at level 10, x name, m at level 100, k at level 200, only parsing).
Notation "m '>>' k" := (Py.bind m (fun _ => k))
  (at level 90, right associativity, only parsing).

(** ** Collections with validity flags *)

Module Masked.

(** Modelled from the spec: the classes of the catalogue and of the dot
    collection are not under src/. Both are an "ordered collection" whose
    entries carry 'a boolean "valid" flag (mask)'; an entry is an item and
    its flag. *)
Record entry (A : Type) : Type := Entry { item : A; valid : bool }.
Arguments Entry {A} item valid.
Arguments item {A} e.
Arguments valid {A} e.

Section Ops.
Context {A : Type}.

(** A mask is one boolean per entry; [true] masks the entry out, as in
    [mask_sensor_data(errors > limit)]. *)
Definition mask : Type := list bool.

(** Modelled from the spec: the property [count], the number of entries,
    valid or not ("masking never deletes entries, only flags them"). *)
Definition count (c : list (entry A)) : nat := length c.

(** Modelled from the spec: the property [count_valid], the number of
    entries whose flag is set ("count_valid <= count"). *)
Definition count_valid (c : list (entry A)) : nat :=
  length (List.filter valid c).

(** The flags of a collection, entry by entry. *)
Definition flags (c : list (entry A)) : list bool := map valid c.

(** How a collection combines the flag of an entry with the bit of a new
    mask is decided by code that is not under src/: it is the argument
    [rule] of a mask call. *)
Definition rule : Type := bool -> bool -> bool.

(** Modelled from the spec: a mask is "combinable (a later mask call
    reduces validity further)": an entry stays valid when it was valid and
    its mask bit is off. *)
Definition reduce : rule := fun v b => v && negb b.

(** The other reading, of the assignment [stars.mask = mask] as it is
    written: the new mask replaces the flags. *)
Definition assign : rule := fun _ b => negb b.

(** Modelled from the spec: the mask operations of the catalogue and of
    the dot collection are not under src/. A mask call "sets validity
    flags without removing entries": entry [i] gets the flag that the rule
    gives for its flag and bit [i] of the mask. *)
Fixpoint apply_mask (r : rule) (c : list (entry A)) (m : mask) : list (entry A) :=
  match c, m with
  | [], _ => []
  | e :: c', [] => e :: c'
  | e :: c', b :: m' =>
      Entry (item e) (r (valid e) b) :: apply_mask r c' m'
  end.

(** Modelled from the spec: [cull()] is not under src/. It "permanently
    discards invalid entries, shrinking the working set and renumbering
    indices". *)
Definition cull (c : list (entry A)) : list (entry A) :=
  List.filter valid c.


(** Modelled from the spec: the accessors with a [masked] argument are
    not under src/. With [masked] they give the valid entries ("all valid
    pairs"), without it all entries, as [MainWindow.maskSensor] builds a
    mask for every dot from the errors with [masked=False]. *)
Definition select (masked : bool) (c : list (entry A)) : list A :=
  map item (if masked then List.filter valid c else c).

End Ops.

End Masked.

(** ** The data model: catalogue, sensor data, projection *)

(** [EarthLocation(lon, lat, alt)] as [MainWindow.updateLocation] builds it. *)
Record Location : Type := EarthLocation { lon : R; lat : R; alt : R }.

(** The observation time ([datetime]), as a number of microseconds. *)
Definition Time : Type := Z.

(** A projection instance is called on pixel coordinates and gives sky
    coordinates, one row per point. *)
Definition Projection : Type := Numpy.row -> Numpy.row.

(** The twelve constants of a projection, in the order of
    [getConstantsTuple]: x0, y0, a0, A, F, V, S, D, P, Q, eps, E. *)
Definition Constants : Type := (R * R * R * R * R * R * R * R * R * R * R * R)%type.

(** A projection class builds an instance from the twelve constants, as
    [MainWindow.updateProjection] calls [BorovickaProjection] on the
    unpacked constants tuple. *)
Definition ProjectionCls : Type := Constants -> Projection.

Module Catalogue.

(** Modelled from the spec: the class [Catalogue] is not under src/. A
    star has "a spherical sky position" and "a brightness magnitude". *)
Record Star : Type := { sky : Numpy.row; vmag : R }.

(** Modelled from the spec: a catalogue is an "ordered collection of
    stars", each with its flag. *)
Definition t : Type := list (Masked.entry Star).

(** Modelled from the spec: [catalogue.count]. *)
Definition count (c : t) : nat := Masked.count c.

(** Modelled from the spec: [catalogue.count_valid]. *)
Definition count_valid (c : t) : nat := Masked.count_valid c.

(** Modelled from the spec: [catalogue.set_mask(mask)], a mask call on
    the catalogue. *)
Definition set_mask (r : Masked.rule) (c : t) (mask : Masked.mask) : t :=
  Masked.apply_mask r c mask.

(** Modelled from the spec: [catalogue.cull()]. *)
Definition cull (c : t) : t := Masked.cull c.

(** Modelled from the spec: [catalogue.to_altaz_deg(location, time,
    masked=masked)] is not under src/. It gives one (altitude, azimuth)
    row in degrees per selected star. The transformation of a sky position
    to the horizontal frame of an observer is astropy's; it is the
    argument [altaz_deg]. *)
Definition to_altaz_deg (altaz_deg : Location -> Time -> Numpy.row -> Numpy.row)
           (c : t) (location : Location) (time : Time) (masked : bool)
  : Numpy.ndarray :=
  map (fun s => altaz_deg location time (sky s)) (Masked.select masked c).

End Catalogue.

Module DotCollection.

(** Modelled from the spec: the class of the dot collection is not under
    src/. A detected dot has "pixel x/y" and a "magnitude". *)
Record Dot : Type := { xy : Numpy.row; m : R }.

(** Modelled from the spec: "an ordered collection of detected dots",
    each with its flag. *)
Definition t : Type := list (Masked.entry Dot).

(** Modelled from the spec: [stars.count]. *)
Definition count (c : t) : nat := Masked.count c.

(** Modelled from the spec: [stars.count_valid]. *)
Definition count_valid (c : t) : nat := Masked.count_valid c.

(** Modelled from the spec: the assignment [stars.mask = mask], a mask
    call on the dots. *)
Definition set_mask (r : Masked.rule) (c : t) (mask : Masked.mask) : t :=
  Masked.apply_mask r c mask.

(** Modelled from the spec: [stars.cull()]. *)
Definition cull (c : t) : t := Masked.cull c.

(** Modelled from the spec: [stars.project(projection, masked=masked)] is
    not under src/. It projects the selected dots "through the Distortion
    Projection Model", one row per dot. *)
Definition project (c : t) (projection : Projection) (masked : bool)
  : Numpy.ndarray :=
  map (fun d => projection (xy d)) (Masked.select masked c).

End DotCollection.

Module Meteor.

(** Modelled from the spec: the class of the meteor track is not under
    src/. A sample has "pixel x/y, magnitude, frame index". *)
Record Sample : Type := { xy : Numpy.row; m : R; frame : Z }.

(** Modelled from the spec: "an ordered sequence of meteor track
    samples". *)
Definition t : Type := list Sample.

(** Modelled from the spec: [meteor.count]. *)
Definition count (c : t) : nat := length c.

(** Modelled from the spec: [meteor.project(projection)] is not under
    src/. It "projects meteor track points through the Distortion
    Projection Model", one row per sample. *)
Definition project (c : t) (projection : Projection) : Numpy.ndarray :=
  map (fun s => projection (xy s)) c.

End Meteor.

Module SensorData.

(** Modelled from the spec: the class [SensorData] is not under src/. Of
    an observation session the matcher uses the dots ([stars]) and the
    meteor track ([meteor]). *)
Record t : Type := { stars : DotCollection.t; meteor : Meteor.t }.

Definition with_stars (s : t) (d : DotCollection.t) : t :=
  {| stars := d; meteor := meteor s |}.

End SensorData.

(** ** Spherical geometry utilities *)

Module Utilities.

Section Geometry.

(** The great-circle distance between two points given as
    (co-altitude, azimuth) rows; the formula is not under src/. *)
Variable angular_distance : Numpy.row -> Numpy.row -> R.

(** Modelled from the spec: [spherical_distance] is not under src/. It
    is the "great-circle distance between two sets of (co-altitude,
    azimuth) pairs": numpy applies the point formula row by row and
    broadcasts the leading axis. *)
Definition spherical_distance (x y : Numpy.ndarray) : option Numpy.vector :=
  Numpy.broadcast angular_distance x y.

End Geometry.

(** Modelled from the spec: the point formula is not under src/. The
    "standard spherical law-of-cosines" formulation on two
    (co-altitude, azimuth) rows. *)
Definition great_circle (p q : Numpy.row) : R :=
  acos (cos (fst p) * cos (fst q)
        + sin (fst p) * sin (fst q) * cos (snd p - snd q)).

(** Modelled from the spec: [spherical_difference] is not under src/. It
    is "a 2-component (co-altitude delta, azimuth delta) vector", and the
    spec records "the vector-difference utility's lack of azimuth
    wrap-around": the two columns are subtracted as they are. *)
Definition angular_difference (p q : Numpy.row) : Numpy.row :=
  (fst p - fst q, snd p - snd q).

Definition spherical_difference (x y : Numpy.ndarray) : option Numpy.ndarray :=
  Numpy.broadcast angular_difference x y.

End Utilities.

(** ** The Counselor: a matcher with fixed pairs *)

Module Counselor.

(** A built [KernelSmoother] is called on an array of disk points and
    gives an array of corrections. *)
Definition Smoother : Type := Numpy.ndarray -> Numpy.ndarray.

(** The attributes of a constructed instance. [smoother = None] is
    Python's [None]. *)
Record t : Type := {
  location : Location;
  time : Time;
  projection_cls : ProjectionCls;
  catalogue : Catalogue.t;
  sensor_data : SensorData.t;
  smoother : option Smoother
}.

(** *** Construction *)

(** The attributes of an instance under construction: [None] is an
    attribute that has not been assigned yet. *)
Record Fields : Type := {
  f_location : option Location;
  f_time : option Time;
  f_projection_cls : option ProjectionCls;
  f_catalogue : option Catalogue.t;
  f_sensor_data : option SensorData.t;
  f_smoother : option (option Smoother)
}.

Definition blank : Fields :=
  {| f_location := None; f_time := None; f_projection_cls := None;
     f_catalogue := None; f_sensor_data := None; f_smoother := None |}.

(** What [__init__] prints. *)
Inductive line : Type :=
| Created (pairs : nat)
| ShowCatalogue (c : Catalogue.t)
| ShowSensorData (s : SensorData.t).

(** The state [__init__] works on: the new instance and the console. *)
Record InitState : Type := { self : Fields; stdout : list line }.

Definition on_self (f : Fields -> Fields) (s : InitState) : InitState :=
  {| self := f (self s); stdout := stdout s |}.

Definition print (l : line) : Py.M InitState unit :=
  Py.modify (fun s => {| self := self s; stdout := stdout s ++ [l] |}).

Definition set_catalogue (c : Catalogue.t) (f : Fields) : Fields :=
  {| f_location := f_location f; f_time := f_time f;
     f_projection_cls := f_projection_cls f;
     f_catalogue := Some c; f_sensor_data := f_sensor_data f;
     f_smoother := f_smoother f |}.

Definition set_sensor_data (d : SensorData.t) (f : Fields) : Fields :=
  {| f_location := f_location f; f_time := f_time f;
     f_projection_cls := f_projection_cls f;
     f_catalogue := f_catalogue f; f_sensor_data := Some d;
     f_smoother := f_smoother f |}.

Definition set_smoother (s : option Smoother) (f : Fields) : Fields :=
  {| f_location := f_location f; f_time := f_time f;
     f_projection_cls := f_projection_cls f;
     f_catalogue := f_catalogue f; f_sensor_data := f_sensor_data f;
     f_smoother := Some s |}.

(** Modelled from the spec: [Matcher.__init__], the constructor of the
    base class, is not under src/. A matcher is owned by one session with
    a location, a time and a projection model ([errors] reads
    [self.location] and [self.time]): the base constructor stores its
    three arguments. *)
Definition Matcher_init (location : Location) (time : Time)
           (projection_cls : ProjectionCls) : Py.M InitState unit :=
  Py.modify (on_self (fun f =>
    {| f_location := Some location; f_time := Some time;
       f_projection_cls := Some projection_cls;
       f_catalogue := f_catalogue f; f_sensor_data := f_sensor_data f;
       f_smoother := f_smoother f |})).

(** [Counselor.__init__]. *)
Definition __init__ (location : Location) (time : Time)
           (projection_cls : ProjectionCls)
           (catalogue : Catalogue.t) (sensor_data : SensorData.t)
  : Py.M InitState unit :=
  Matcher_init location time projection_cls >>
  Py.assert (Nat.eqb (DotCollection.count (SensorData.stars sensor_data))
                     (Catalogue.count catalogue)) >>
  Py.modify (on_self (set_catalogue catalogue)) >>
  Py.modify (on_self (set_sensor_data sensor_data)) >>
  Py.modify (on_self (set_smoother None)) >>
  print (Created (Catalogue.count catalogue)) >>
  print (ShowCatalogue catalogue) >>
  print (ShowSensorData sensor_data).

(** The instance, once every attribute is assigned. *)
Definition instance (f : Fields) : option t :=
  match f_location f, f_time f, f_projection_cls f,
        f_catalogue f, f_sensor_data f, f_smoother f with
  | Some l, Some tm, Some p, Some c, Some d, Some s =>
      Some {| location := l; time := tm; projection_cls := p;
              catalogue := c; sensor_data := d; smoother := s |}
  | _, _, _, _, _, _ => None
  end.

(** The call [Counselor(location, time, projection_cls, catalogue,
    sensor_data)] with the console [out]: [__init__] runs on a blank
    instance. *)
Definition new (location : Location) (time : Time)
           (projection_cls : ProjectionCls)
           (catalogue : Catalogue.t) (sensor_data : SensorData.t)
           (out : list line) : InitState * Py.outcome unit :=
  __init__ location time projection_cls catalogue sensor_data
           {| self := blank; stdout := out |}.

(** *** Masking and pairing *)

(** The property [count]. *)
Definition count (self : t) : nat := Catalogue.count (catalogue self).

(** [mask_catalogue]: both collections are updated in place, with the
    same mask. [r] is the rule by which a collection takes a mask. *)
Definition mask_catalogue (r : Masked.rule) (self : t) (mask : Masked.mask) : t :=
  let catalogue' := Catalogue.set_mask r (catalogue self) mask in
  let stars' := DotCollection.set_mask r (SensorData.stars (sensor_data self)) mask in
  {| location := location self; time := time self;
     projection_cls := projection_cls self;
     catalogue := catalogue';
     sensor_data := SensorData.with_stars (sensor_data self) stars';
     smoother := smoother self |}.

(** [mask_sensor_data]. *)
Definition mask_sensor_data (r : Masked.rule) (self : t) (mask : Masked.mask) : t :=
  mask_catalogue r self mask.

(** [pair]: both collections are culled in place and [self] is returned;
    the value is the instance after the call. *)
Definition pair (self : t) (projection : Projection) : t :=
  let catalogue' := Catalogue.cull (catalogue self) in
  let stars' := DotCollection.cull (SensorData.stars (sensor_data self)) in
  {| location := location self; time := time self;
     projection_cls := projection_cls self;
     catalogue := catalogue';
     sensor_data := SensorData.with_stars (sensor_data self) stars';
     smoother := smoother self |}.

(** *** Errors *)

Section Errors.

Variable angular_distance : Numpy.row -> Numpy.row -> R.
Variable altaz_deg : Location -> Time -> Numpy.row -> Numpy.row.

(** [compute_distances(observed, catalogue)], on two array objects. The
    name [catalogue] is rebound to the new array [np.radians] returns;
    column 0 of [observed] is assigned in place. *)
Definition compute_distances (observed catalogue : Py.ref)
  : Py.M Py.Store Numpy.vector :=
  let* c := Py.read catalogue in
  let catalogue' := Numpy.radians_arr c in
  let* o := Py.read observed in
  Py.write observed (Numpy.co_altitude_arr o) >>
  let* o' := Py.read observed in
  Py.of_option (Utilities.spherical_distance angular_distance o' catalogue').

(** [compute_vector_errors(observed, catalogue)]. *)
Definition compute_vector_errors (observed catalogue : Py.ref)
  : Py.M Py.Store Numpy.ndarray :=
  let* c := Py.read catalogue in
  let catalogue' := Numpy.radians_arr c in
  let* o := Py.read observed in
  Py.write observed (Numpy.co_altitude_arr o) >>
  let* o' := Py.read observed in
  Py.of_option (Utilities.spherical_difference o' catalogue').

(** [errors]: the two arguments are new arrays. *)
Definition errors (self : t) (projection : Projection) (masked : bool)
  : Py.M Py.Store Numpy.vector :=
  let* observed :=
    Py.alloc (DotCollection.project (SensorData.stars (sensor_data self))
                                    projection masked) in
  let* cat :=
    Py.alloc (Catalogue.to_altaz_deg altaz_deg (catalogue self)
                                     (location self) (time self) masked) in
  compute_distances observed cat.

(** [errors_inverse]. *)
Definition errors_inverse (self : t) (projection : Projection) (masked : bool)
  : Py.M Py.Store Numpy.vector :=
  errors self projection masked.

End Errors.

(** *** The meteor *)

Section Meteor.

(** [proj_to_disk] and [disk_to_altaz] of the utilities are not under
    src/; they map an array to an array. *)
Variable proj_to_disk : Numpy.ndarray -> Numpy.ndarray.
Variable disk_to_altaz : Numpy.ndarray -> Numpy.ndarray.

(** The call [self.smoother(xy)]: calling [None] is a [TypeError]. *)
Definition call_smoother (s : option Smoother) (xy : Numpy.ndarray)
  : Py.outcome Numpy.ndarray :=
  match s with
  | Some f => Py.Return (f xy)
  | None => Py.Raise Py.TypeError
  end.

(** The sum [xy + dxdy] of two (N, 2) arrays. *)
Definition add (xy dxdy : Numpy.ndarray) : Py.outcome Numpy.ndarray :=
  match Numpy.broadcast Numpy.row_add xy dxdy with
  | Some a => Py.Return a
  | None => Py.Raise Py.ValueError
  end.

(** [project_meteor]. *)
Definition project_meteor (self : t) (projection : Projection) : Numpy.ndarray :=
  let xy := proj_to_disk (Meteor.project (SensorData.meteor (sensor_data self)) projection) in
  disk_to_altaz xy.

(** [correction_meteor_xy]. *)
Definition correction_meteor_xy (self : t) (projection : Projection)
  : Py.outcome Numpy.ndarray :=
  call_smoother (smoother self)
    (proj_to_disk (Meteor.project (SensorData.meteor (sensor_data self)) projection)).

(** [correct_meteor]. *)
Definition correct_meteor (self : t) (projection : Projection)
  : Py.outcome Numpy.ndarray :=
  let xy := proj_to_disk (Meteor.project (SensorData.meteor (sensor_data self)) projection) in
  match call_smoother (smoother self) xy with
  | Py.Raise e => Py.Raise e
  | Py.Return dxdy =>
      match add xy dxdy with
      | Py.Raise e => Py.Raise e
      | Py.Return s => Py.Return (disk_to_altaz s)
      end
  end.

End Meteor.

End Counselor.

(** ** The calibration optimizer *)

Module CalibrationOptimizer.

(** What [matcher.minimize] returns: the parameter vector [result.x] and
    the indicators of convergence. The optimizer itself is not under
    src/. *)
Record OptimizeResult : Type := {
  x : Constants;
  nit : nat;
  success : bool
}.

End CalibrationOptimizer.

(** ** The main window: parameters and optimisation *)

Module MainWindow.

Import CalibrationOptimizer.

(** The values of the twelve parameter spin boxes, in degrees for the
    angular ones. A spin box is idealised as a cell that holds the real
    number it is given. *)
Record Parameters : Type := {
  dsb_x0 : R; dsb_y0 : R; dsb_a0 : R; dsb_A : R; dsb_F : R; dsb_V : R;
  dsb_S : R; dsb_D : R; dsb_P : R; dsb_Q : R; dsb_eps : R; dsb_E : R
}.

Section Window.

(** The unpaired matcher and its [pair] are not under src/. *)
Variable Matchmaker : Type.
Variable Matchmaker_pair : Matchmaker -> Projection -> Py.outcome Counselor.t.
Variable BorovickaProjection : ProjectionCls.

(** [self.matcher] is a Matchmaker or a Counselor. *)
Inductive Matcher : Type :=
| IsMatchmaker (m : Matchmaker)
| IsCounselor (c : Counselor.t).

(** [matcher.minimize] of the base class is not under src/. *)
Variable matcher_minimize : Matcher -> Constants -> Z -> Py.outcome OptimizeResult.

Record t : Type := {
  parameters : Parameters;
  sb_maxiter : Z;
  w_input_enabled : bool;
  parameter_signals_blocked : bool;
  matcher : Matcher
}.

Definition with_parameters (w : t) (p : Parameters) : t :=
  {| parameters := p; sb_maxiter := sb_maxiter w;
     w_input_enabled := w_input_enabled w;
     parameter_signals_blocked := parameter_signals_blocked w;
     matcher := matcher w |}.

Definition with_matcher (w : t) (m : Matcher) : t :=
  {| parameters := parameters w; sb_maxiter := sb_maxiter w;
     w_input_enabled := w_input_enabled w;
     parameter_signals_blocked := parameter_signals_blocked w;
     matcher := m |}.

(** [self.w_input.setEnabled(b)]. *)
Definition setEnabled (b : bool) (w : t) : t :=
  {| parameters := parameters w; sb_maxiter := sb_maxiter w;
     w_input_enabled := b;
     parameter_signals_blocked := parameter_signals_blocked w;
     matcher := matcher w |}.

(** [blockParameterSignals]. *)
Definition blockParameterSignals (block : bool) (w : t) : t :=
  {| parameters := parameters w; sb_maxiter := sb_maxiter w;
     w_input_enabled := w_input_enabled w;
     parameter_signals_blocked := block;
     matcher := matcher w |}.

(** The property [paired]: [isinstance(self.matcher, Counselor)]. *)
Definition paired (w : t) : bool :=
  match matcher w with
  | IsCounselor _ => true
  | IsMatchmaker _ => false
  end.

(** [getConstantsTuple]. *)
Definition getConstantsTuple (p : Parameters) : Constants :=
  (dsb_x0 p,
   dsb_y0 p,
   Numpy.radians (dsb_a0 p),
   dsb_A p,
   Numpy.radians (dsb_F p),
   dsb_V p,
   dsb_S p,
   dsb_D p,
   dsb_P p,
   dsb_Q p,
   Numpy.radians (dsb_eps p),
   Numpy.radians (dsb_E p)).

(** The twelve [setValue] calls of [minimize], on the unpacked
    [result.x]. *)
Definition setValues (result_x : Constants) : Parameters :=
  let '(x0, y0, a0, A, F, V, S_, D, P, Q, e, E) := result_x in
  {| dsb_x0 := x0;
     dsb_y0 := y0;
     dsb_a0 := Numpy.degrees a0;
     dsb_A := A;
     dsb_F := Numpy.degrees F;
     dsb_V := V;
     dsb_S := S_;
     dsb_D := D;
     dsb_P := P;
     dsb_Q := Q;
     dsb_eps := Numpy.degrees e;
     dsb_E := Numpy.degrees E |}.

(** [updateProjection]: the projection of the current parameters. *)
Definition projection (w : t) : Projection :=
  BorovickaProjection (getConstantsTuple (parameters w)).

(** [onParametersChanged] rebuilds the projection, the smoother of the
    matcher, the errors and the plots through methods of the matcher and
    of the plots that are not under src/: it can change the window and it
    can raise. *)
Variable onParametersChanged : Py.M t unit.

(** [minimize]. The repaints are not part of the state. *)
Definition minimize : Py.M t unit :=
  Py.modify (setEnabled false) >>
  let* result :=
    (fun w => (w, matcher_minimize (matcher w)
                                   (getConstantsTuple (parameters w))
                                   (sb_maxiter w))) in
  Py.modify (blockParameterSignals true) >>
  Py.modify (fun w => with_parameters w (setValues (x result))) >>
  Py.modify (blockParameterSignals false) >>
  Py.modify (setEnabled true) >>
  onParametersChanged.

(** The method [pair] of the matcher the window holds. *)
Definition Matcher_pair (m : Matcher) (projection : Projection)
  : Py.outcome Matcher :=
  match m with
  | IsCounselor c => Py.Return (IsCounselor (Counselor.pair c projection))
  | IsMatchmaker mm =>
      match Matchmaker_pair mm projection with
      | Py.Return c => Py.Return (IsCounselor c)
      | Py.Raise e => Py.Raise e
      end
  end.

End Window.

End MainWindow.

(** ** The parameter boundary on binary64 numbers *)

Module Boundary64.

(** The values of the twelve parameter spin boxes as float64 numbers. *)
Record Parameters : Type := {
  dsb_x0 : float; dsb_y0 : float; dsb_a0 : float; dsb_A : float;
  dsb_F : float; dsb_V : float; dsb_S : float; dsb_D : float;
  dsb_P : float; dsb_Q : float; dsb_eps : float; dsb_E : float
}.

(** The twelve constants as float64 numbers. *)
Definition Constants : Type :=
  (float * float * float * float * float * float
   * float * float * float * float * float * float)%type.

(** [getConstantsTuple], as the program computes it. *)
Definition getConstantsTuple (p : Parameters) : Constants :=
  (dsb_x0 p,
   dsb_y0 p,
   Float64.radians (dsb_a0 p),
   dsb_A p,
   Float64.radians (dsb_F p),
   dsb_V p,
   dsb_S p,
   dsb_D p,
   dsb_P p,
   dsb_Q p,
   Float64.radians (dsb_eps p),
   Float64.radians (dsb_E p)).

(** The twelve values [minimize] hands to [setValue], as the program
    computes them from the unpacked [result.x]. *)
Definition setValues (result_x : Constants) : Parameters :=
  let '(x0, y0, a0, A, F, V, S_, D, P, Q, e, E) := result_x in
  {| dsb_x0 := x0;
     dsb_y0 := y0;
     dsb_a0 := Float64.degrees a0;
     dsb_A := A;
     dsb_F := Float64.degrees F;
     dsb_V := V;
     dsb_S := S_;
     dsb_D := D;
     dsb_P := P;
     dsb_Q := Q;
     dsb_eps := Float64.degrees e;
     dsb_E := Float64.degrees E |}.

End Boundary64.

(** ** What a fit that returns its input writes back *)

Module RoundTrip.

Import MainWindow.



End RoundTrip.

(** ** Vocabulary of the specification *)

Module Paired.

(** The pairs of a Counselor are positional: entry [i] of the catalogue
    and dot [i] of the sensor data are one pair, valid or not together. *)
Definition aligned (c : Counselor.t) : Prop :=
  Masked.flags (Counselor.catalogue c)
  = Masked.flags (SensorData.stars (Counselor.sensor_data c)).

(** The equal-valid-count invariant. *)
Definition balanced (c : Counselor.t) : Prop :=
  Catalogue.count_valid (Counselor.catalogue c)
  = DotCollection.count_valid (SensorData.stars (Counselor.sensor_data c)).

(** A masking operation of the matcher. *)
Inductive MaskOp : Type :=
| MaskCatalogue (mask : Masked.mask)
| MaskSensorData (mask : Masked.mask).

Definition apply_op (r : Masked.rule) (c : Counselor.t) (op : MaskOp)
  : Counselor.t :=
  match op with
  | MaskCatalogue mask => Counselor.mask_catalogue r c mask
  | MaskSensorData mask => Counselor.mask_sensor_data r c mask
  end.

(** A session of masking operations, first to last. *)
Definition apply_ops (r : Masked.rule) (c : Counselor.t) (ops : list MaskOp)
  : Counselor.t :=
  fold_left (apply_op r) ops c.

(** The mask of an operation. *)
Definition mask_of (op : MaskOp) : Masked.mask :=
  match op with
  | MaskCatalogue mask => mask
  | MaskSensorData mask => mask
  end.

(** What one mask makes of a list of flags: flag [i] meets bit [i]. *)
Fixpoint mask_flags (r : Masked.rule) (fs : list bool) (m : Masked.mask)
  : list bool :=
  match fs, m with
  | [], _ => []
  | f :: fs', [] => f :: fs'
  | f :: fs', b :: m' => r f b :: mask_flags r fs' m'
  end.

(** What a session of masks makes of a list of flags. *)
Definition flags_after (r : Masked.rule) (fs : list bool) (ops : list MaskOp)
  : list bool :=
  fold_left (mask_flags r) (map mask_of ops) fs.

End Paired.

Module MeteorSpec.

(** The meteor track in unit-disk coordinates: projected through the
    projection model, then mapped to the disk. *)
Definition disk_points (proj_to_disk : Numpy.ndarray -> Numpy.ndarray)
           (track : Meteor.t) (projection : Projection) : Numpy.ndarray :=
  proj_to_disk (Meteor.project track projection).

(** The correction of the meteor in the words of the specification:
    project the track, map it to the disk, add the smoother's correction
    at those disk points, map the sum back to the sky. *)
Definition corrected_track
           (proj_to_disk disk_to_altaz : Numpy.ndarray -> Numpy.ndarray)
           (smoother : Counselor.Smoother)
           (track : Meteor.t) (projection : Projection)
  : Py.outcome Numpy.ndarray :=
  let disk := disk_points proj_to_disk track projection in
  match Counselor.add disk (smoother disk) with
  | Py.Return corrected => Py.Return (disk_to_altaz corrected)
  | Py.Raise e => Py.Raise e
  end.

End MeteorSpec.

Module Azimuth.

(** An azimuth residual is wrapped modulo 2 pi when it is the
    representative of its class in the signed range or in the unsigned
    range of one turn. *)
Definition wrapped_signed (a : R) : Prop := - PI <= a <= PI.
Definition wrapped_unsigned (a : R) : Prop := 0 <= a < 2 * PI.
Definition wrapped (a : R) : Prop := wrapped_signed a \/ wrapped_unsigned a.

End Azimuth.

(** ** A small session *)

Module Demo.

Import Masked.

(** Two stars, the second one masked out. *)
Definition catalogue : Catalogue.t :=
  [ Entry {| Catalogue.sky := (0, 0); Catalogue.vmag := 1 |} true;
    Entry {| Catalogue.sky := (1, 350); Catalogue.vmag := 2 |} false ].

(** Two dots, paired with the two stars. *)
Definition stars : DotCollection.t :=
  [ Entry {| DotCollection.xy := (0, 0); DotCollection.m := 1 |} true;
    Entry {| DotCollection.xy := (1, 0); DotCollection.m := 2 |} false ].

(** One star only: no pairing with [stars]. *)
Definition short_catalogue : Catalogue.t :=
  [ Entry {| Catalogue.sky := (0, 0); Catalogue.vmag := 1 |} true ].

Definition track : Meteor.t :=
  [ {| Meteor.xy := (0, 0); Meteor.m := 3; Meteor.frame := 0%Z |};
    {| Meteor.xy := (1, 1); Meteor.m := 4; Meteor.frame := 1%Z |} ].

Definition sensor_data : SensorData.t :=
  {| SensorData.stars := stars; SensorData.meteor := track |}.

Definition site : Location := EarthLocation 17 48 531.

(** A projection that takes the pixel row as the sky row. *)
Definition projection : Projection := fun p => p.

Definition projection_cls : ProjectionCls := fun _ => projection.

(** A horizontal frame that takes the sky row as the (alt, az) row. *)
Definition altaz_deg : Location -> Time -> Numpy.row -> Numpy.row :=
  fun _ _ p => p.

(** A smoother that shifts every point by (1, 0). *)
Definition shift : Counselor.Smoother := map (fun _ => (1, 0)).

Definition counselor : Counselor.t :=
  {| Counselor.location := site; Counselor.time := 0%Z;
     Counselor.projection_cls := projection_cls;
     Counselor.catalogue := catalogue;
     Counselor.sensor_data := sensor_data;
     Counselor.smoother := Some shift |}.

(** The twelve spin boxes. *)
Definition parameters : MainWindow.Parameters :=
  {| MainWindow.dsb_x0 := 1; MainWindow.dsb_y0 := 2; MainWindow.dsb_a0 := 30;
     MainWindow.dsb_A := 4; MainWindow.dsb_F := 45; MainWindow.dsb_V := 6;
     MainWindow.dsb_S := 7; MainWindow.dsb_D := 8; MainWindow.dsb_P := 9;
     MainWindow.dsb_Q := 10; MainWindow.dsb_eps := 60; MainWindow.dsb_E := 90 |}.

(** A session without an unpaired matcher. *)
Definition window : MainWindow.t Empty_set :=
  {| MainWindow.parameters := parameters;
     MainWindow.sb_maxiter := 100%Z;
     MainWindow.w_input_enabled := true;
     MainWindow.parameter_signals_blocked := false;
     MainWindow.matcher := MainWindow.IsCounselor Empty_set counselor |}.


End Demo.

(** ** The main window: constants files, bandwidth, masks, counters *)

Module Yaml.

(** The document of a constants file, as [_exportProjectionConstants]
    dumps it: the name of the projection and the parameters by name. A
    parameter that is absent from the document is absent from the map. *)
Record Document : Type := { proj : string; params : gmap string R }.

(** What a file holds: a document, or text that [yaml.safe_load]
    rejects with a [YAMLError]. *)
Inductive content : Type :=
| Text (d : Document)
| Unparsable.

End Yaml.

Module ParamWidgets.

Import MainWindow.

(** A spin box of the parameter panel: its [value()] and its
    [setValue()]. *)
Record Widget : Type := {
  value : Parameters -> R;
  setValue : R -> Parameters -> Parameters
}.

Definition box_x0 : Widget :=
  {| value := dsb_x0;
     setValue := fun v p =>
       {| dsb_x0 := v; dsb_y0 := dsb_y0 p; dsb_a0 := dsb_a0 p; dsb_A := dsb_A p;
          dsb_F := dsb_F p; dsb_V := dsb_V p; dsb_S := dsb_S p; dsb_D := dsb_D p;
          dsb_P := dsb_P p; dsb_Q := dsb_Q p; dsb_eps := dsb_eps p; dsb_E := dsb_E p |} |}.

Definition box_y0 : Widget :=
  {| value := dsb_y0;
     setValue := fun v p =>
       {| dsb_x0 := dsb_x0 p; dsb_y0 := v; dsb_a0 := dsb_a0 p; dsb_A := dsb_A p;
          dsb_F := dsb_F p; dsb_V := dsb_V p; dsb_S := dsb_S p; dsb_D := dsb_D p;
          dsb_P := dsb_P p; dsb_Q := dsb_Q p; dsb_eps := dsb_eps p; dsb_E := dsb_E p |} |}.

Definition box_a0 : Widget :=
  {| value := dsb_a0;
     setValue := fun v p =>
       {| dsb_x0 := dsb_x0 p; dsb_y0 := dsb_y0 p; dsb_a0 := v; dsb_A := dsb_A p;
          dsb_F := dsb_F p; dsb_V := dsb_V p; dsb_S := dsb_S p; dsb_D := dsb_D p;
          dsb_P := dsb_P p; dsb_Q := dsb_Q p; dsb_eps := dsb_eps p; dsb_E := dsb_E p |} |}.

Definition box_A : Widget :=
  {| value := dsb_A;
     setValue := fun v p =>
       {| dsb_x0 := dsb_x0 p; dsb_y0 := dsb_y0 p; dsb_a0 := dsb_a0 p; dsb_A := v;
          dsb_F := dsb_F p; dsb_V := dsb_V p; dsb_S := dsb_S p; dsb_D := dsb_D p;
          dsb_P := dsb_P p; dsb_Q := dsb_Q p; dsb_eps := dsb_eps p; dsb_E := dsb_E p |} |}.

Definition box_F : Widget :=
  {| value := dsb_F;
     setValue := fun v p =>
       {| dsb_x0 := dsb_x0 p; dsb_y0 := dsb_y0 p; dsb_a0 := dsb_a0 p; dsb_A := dsb_A p;
          dsb_F := v; dsb_V := dsb_V p; dsb_S := dsb_S p; dsb_D := dsb_D p;
          dsb_P := dsb_P p; dsb_Q := dsb_Q p; dsb_eps := dsb_eps p; dsb_E := dsb_E p |} |}.

Definition box_V : Widget :=
  {| value := dsb_V;
     setValue := fun v p =>
       {| dsb_x0 := dsb_x0 p; dsb_y0 := dsb_y0 p; dsb_a0 := dsb_a0 p; dsb_A := dsb_A p;
          dsb_F := dsb_F p; dsb_V := v; dsb_S := dsb_S p; dsb_D := dsb_D p;
          dsb_P := dsb_P p; dsb_Q := dsb_Q p; dsb_eps := dsb_eps p; dsb_E := dsb_E p |} |}.

Definition box_S : Widget :=
  {| value := dsb_S;
     setValue := fun v p =>
       {| dsb_x0 := dsb_x0 p; dsb_y0 := dsb_y0 p; dsb_a0 := dsb_a0 p; dsb_A := dsb_A p;
          dsb_F := dsb_F p; dsb_V := dsb_V p; dsb_S := v; dsb_D := dsb_D p;
          dsb_P := dsb_P p; dsb_Q := dsb_Q p; dsb_eps := dsb_eps p; dsb_E := dsb_E p |} |}.

Definition box_D : Widget :=
  {| value := dsb_D;
     setValue := fun v p =>
       {| dsb_x0 := dsb_x0 p; dsb_y0 := dsb_y0 p; dsb_a0 := dsb_a0 p; dsb_A := dsb_A p;
          dsb_F := dsb_F p; dsb_V := dsb_V p; dsb_S := dsb_S p; dsb_D := v;
          dsb_P := dsb_P p; dsb_Q := dsb_Q p; dsb_eps := dsb_eps p; dsb_E := dsb_E p |} |}.

Definition box_P : Widget :=
  {| value := dsb_P;
     setValue := fun v p =>
       {| dsb_x0 := dsb_x0 p; dsb_y0 := dsb_y0 p; dsb_a0 := dsb_a0 p; dsb_A := dsb_A p;
          dsb_F := dsb_F p; dsb_V := dsb_V p; dsb_S := dsb_S p; dsb_D := dsb_D p;
          dsb_P := v; dsb_Q := dsb_Q p; dsb_eps := dsb_eps p; dsb_E := dsb_E p |} |}.

Definition box_Q : Widget :=
  {| value := dsb_Q;
     setValue := fun v p =>
       {| dsb_x0 := dsb_x0 p; dsb_y0 := dsb_y0 p; dsb_a0 := dsb_a0 p; dsb_A := dsb_A p;
          dsb_F := dsb_F p; dsb_V := dsb_V p; dsb_S := dsb_S p; dsb_D := dsb_D p;
          dsb_P := dsb_P p; dsb_Q := v; dsb_eps := dsb_eps p; dsb_E := dsb_E p |} |}.

Definition box_eps : Widget :=
  {| value := dsb_eps;
     setValue := fun v p =>
       {| dsb_x0 := dsb_x0 p; dsb_y0 := dsb_y0 p; dsb_a0 := dsb_a0 p; dsb_A := dsb_A p;
          dsb_F := dsb_F p; dsb_V := dsb_V p; dsb_S := dsb_S p; dsb_D := dsb_D p;
          dsb_P := dsb_P p; dsb_Q := dsb_Q p; dsb_eps := v; dsb_E := dsb_E p |} |}.

Definition box_E : Widget :=
  {| value := dsb_E;
     setValue := fun v p =>
       {| dsb_x0 := dsb_x0 p; dsb_y0 := dsb_y0 p; dsb_a0 := dsb_a0 p; dsb_A := dsb_A p;
          dsb_F := dsb_F p; dsb_V := dsb_V p; dsb_S := dsb_S p; dsb_D := dsb_D p;
          dsb_P := dsb_P p; dsb_Q := dsb_Q p; dsb_eps := dsb_eps p; dsb_E := v |} |}.

(** [param_widgets] of [MainWindowBase.__init__]: the spin boxes and the
    names of their parameters, in this order. *)
Definition param_widgets : list (Widget * string) :=
  [ (box_x0, "x0");
    (box_y0, "y0");
    (box_a0, "a0");
    (box_A, "A");
    (box_F, "F");
    (box_V, "V");
    (box_S, "S");
    (box_D, "D");
    (box_P, "P");
    (box_Q, "Q");
    (box_eps, "eps");
    (box_E, "E") ].

End ParamWidgets.

Module ConstantsFile.

Import ParamWidgets.

(** The lines the functions write to the error log. *)
Inductive logline : Type :=
| CouldNotParse (filename : string)
| CouldNotImport (filename : string)
| CouldNotExport (filename : string).

Section Files.

Variable Matchmaker : Type.
Variable BorovickaProjection : ProjectionCls.

(** Whether [open(filename, 'w+')] can create the file: the directory it
    names exists. *)
Variable creatable : string -> bool.

(** The window together with what the file functions touch: the
    attribute [self.projection], the files on disk and the error log. *)
Record Session : Type := {
  window : MainWindow.t Matchmaker;
  projection : Projection;
  files : gmap string Yaml.content;
  log : list logline
}.

Definition on_window (f : MainWindow.t Matchmaker -> MainWindow.t Matchmaker)
           (s : Session) : Session :=
  {| window := f (window s); projection := projection s;
     files := files s; log := log s |}.

Definition log_error (l : logline) : Py.M Session unit :=
  Py.modify (fun s => {| window := window s; projection := projection s;
                         files := files s; log := log s ++ [l] |}).

(** [updateProjection]: the attribute is rebuilt from the spin boxes. *)
Definition updateProjection : Py.M Session unit :=
  Py.modify (fun s =>
    {| window := window s;
       projection := BorovickaProjection
                       (MainWindow.getConstantsTuple
                          (MainWindow.parameters _ (window s)));
       files := files s; log := log s |}).

(** The document [_exportProjectionConstants] dumps: the twelve values as
    the spin boxes hold them. *)
Definition document (p : MainWindow.Parameters) : Yaml.Document :=
  {| Yaml.proj := "Borovicka";
     Yaml.params :=
       <["x0" := MainWindow.dsb_x0 p]> (
       <["y0" := MainWindow.dsb_y0 p]> (
       <["a0" := MainWindow.dsb_a0 p]> (
       <["A" := MainWindow.dsb_A p]> (
       <["F" := MainWindow.dsb_F p]> (
       <["V" := MainWindow.dsb_V p]> (
       <["S" := MainWindow.dsb_S p]> (
       <["D" := MainWindow.dsb_D p]> (
       <["P" := MainWindow.dsb_P p]> (
       <["Q" := MainWindow.dsb_Q p]> (
       <["eps" := MainWindow.dsb_eps p]> (
       <["E" := MainWindow.dsb_E p]> ∅))))))))))) |}.

(** [_exportProjectionConstants]: the file is opened for writing and the
    document is dumped; a [FileNotFoundError] of [open] is logged. *)
Definition _exportProjectionConstants (filename : string) : Py.M Session unit :=
  fun s =>
    if creatable filename
    then ({| window := window s; projection := projection s;
             files := <[filename := Yaml.Text
                          (document (MainWindow.parameters _ (window s)))]>
                        (files s);
             log := log s |}, Py.Return tt)
    else log_error (CouldNotExport filename) s.

(** [exportProjectionConstants], with the file name the dialog returned
    (the empty string when it was cancelled). *)
Definition exportProjectionConstants (filename : string) : Py.M Session unit :=
  if String.eqb filename "" then Py.ret tt
  else _exportProjectionConstants filename.

(** The loop of [_importProjectionConstants] over [param_widgets]:
    [widget.setValue(data.params[param])]. For a name that the document
    lacks the lookup gives an empty map and [setValue] raises a
    [TypeError]. *)
Fixpoint set_widgets (ws : list (Widget * string)) (data : Yaml.Document)
  : Py.M Session unit :=
  match ws with
  | [] => Py.ret tt
  | (widget, param) :: rest =>
      match Yaml.params data !! param with
      | Some v =>
          Py.modify (on_window (fun w =>
            MainWindow.with_parameters _ w
              (setValue widget v (MainWindow.parameters _ w)))) >>
          set_widgets rest data
      | None => Py.raise Py.TypeError
      end
  end.

(** [_importProjectionConstants]. A missing file and an unparsable file
    are logged; any other exception leaves the function. *)
Definition _importProjectionConstants (filename : string) : Py.M Session unit :=
  fun s =>
    match files s !! filename with
    | None => log_error (CouldNotImport filename) s
    | Some Yaml.Unparsable => log_error (CouldNotParse filename) s
    | Some (Yaml.Text data) =>
        (Py.modify (on_window (MainWindow.blockParameterSignals _ true)) >>
         set_widgets param_widgets data >>
         Py.modify (on_window (MainWindow.blockParameterSignals _ false)) >>
         updateProjection) s
    end.

End Files.

End ConstantsFile.

Module Controls.

(** [bandwidth]: ten to the power of minus a hundredth of the slider. *)
Definition bandwidth (hs_bandwidth : Z) : R :=
  Rpower 10 (- IZR hs_bandwidth / 100).

(** The comparison [a > limit] of an array with a scalar: one boolean per
    element. *)
Definition gt (a : Numpy.vector) (limit : R) : list bool :=
  map (fun v => if Rlt_dec limit v then true else false) a.

(** What [showCounts] shows: the mode, whether the tab of the magnitude
    correction is enabled, and the four counters (the labels hold the
    decimal text of these numbers). *)
Record Counters : Type := {
  lb_mode : string;
  tab_correction_magnitudes_enabled : bool;
  lb_catalogue_all : nat;
  lb_catalogue_near : nat;
  lb_objects_all : nat;
  lb_objects_near : nat
}.

Section Masks.

Variable Matchmaker : Type.

(** The attributes and the mask call of the unpaired matcher are not
    under src/. *)
Variable Matchmaker_catalogue : Matchmaker -> Catalogue.t.
Variable Matchmaker_sensor_data : Matchmaker -> SensorData.t.
Variable Matchmaker_mask_catalogue : Matchmaker -> Masked.mask -> Matchmaker.

(** The rule by which a collection takes a mask. *)
Variable rule : Masked.rule.

(** [self.matcher.catalogue]. *)
Definition catalogue (m : MainWindow.Matcher Matchmaker) : Catalogue.t :=
  match m with
  | MainWindow.IsCounselor _ c => Counselor.catalogue c
  | MainWindow.IsMatchmaker _ mm => Matchmaker_catalogue mm
  end.

(** [self.matcher.sensor_data]. *)
Definition sensor_data (m : MainWindow.Matcher Matchmaker) : SensorData.t :=
  match m with
  | MainWindow.IsCounselor _ c => Counselor.sensor_data c
  | MainWindow.IsMatchmaker _ mm => Matchmaker_sensor_data mm
  end.

(** [self.matcher.mask_catalogue(mask)]. *)
Definition mask_catalogue (m : MainWindow.Matcher Matchmaker) (mask : Masked.mask)
  : MainWindow.Matcher Matchmaker :=
  match m with
  | MainWindow.IsCounselor _ c =>
      MainWindow.IsCounselor _ (Counselor.mask_catalogue rule c mask)
  | MainWindow.IsMatchmaker _ mm =>
      MainWindow.IsMatchmaker _ (Matchmaker_mask_catalogue mm mask)
  end.

(** Modelled from the spec: [catalogue.vmag(masked)] is not under src/.
    It gives the "brightness magnitude" of the selected stars. *)
Definition vmag (c : Catalogue.t) (masked : bool) : Numpy.vector :=
  map Catalogue.vmag (Masked.select masked c).

(** [showCounts]. *)
Definition showCounts (w : MainWindow.t Matchmaker) : Counters :=
  let m := MainWindow.matcher _ w in
  {| lb_mode := if MainWindow.paired _ w then "paired" else "unpaired";
     tab_correction_magnitudes_enabled := MainWindow.paired _ w;
     lb_catalogue_all := Catalogue.count (catalogue m);
     lb_catalogue_near := Catalogue.count_valid (catalogue m);
     lb_objects_all := DotCollection.count (SensorData.stars (sensor_data m));
     lb_objects_near :=
       DotCollection.count_valid (SensorData.stars (sensor_data m)) |}.

(** What [computePositionErrors], [computeMagnitudeErrors] and
    [updatePlots] do goes through methods of the matcher and of the plots
    that are not under src/: they can change the window and they can
    raise. *)
Variable computePositionErrors : Py.M (MainWindow.t Matchmaker) unit.
Variable computeMagnitudeErrors : Py.M (MainWindow.t Matchmaker) unit.
Variable updatePlots : Py.M (MainWindow.t Matchmaker) unit.

(** The mask of [maskCatalogueFaint]: one bit per star of the catalogue,
    set for the stars whose magnitude is above the limit. *)
Definition faint_mask (limit : R) (m : MainWindow.Matcher Matchmaker)
  : Masked.mask :=
  gt (vmag (catalogue m) false) limit.

(** What [maskCatalogueFaint] does once the mask is set: the errors are
    computed again, the plots updated and the counters shown. The log
    line and the flag of the sky plot are not part of the state. *)
Definition refresh_and_show : Py.M (MainWindow.t Matchmaker) Counters :=
  computePositionErrors >>
  computeMagnitudeErrors >>
  updatePlots >>
  (fun w => (w, Py.Return (showCounts w))).

(** [maskCatalogueFaint], with the value of the magnitude limit box. *)
Definition maskCatalogueFaint (dsb_magnitude_limit : R)
  : Py.M (MainWindow.t Matchmaker) Counters :=
  Py.modify (fun w =>
    MainWindow.with_matcher _ w
      (mask_catalogue (MainWindow.matcher _ w)
                      (faint_mask dsb_magnitude_limit (MainWindow.matcher _ w)))) >>
  refresh_and_show.

(** [update_position_smoother] and [update_magnitude_smoother] of the
    matcher are not under src/: they can change the window and they can
    raise. The unpaired matcher and its [pair] are not under src/
    either. *)
Variable Matchmaker_pair : Matchmaker -> Projection -> Py.outcome Counselor.t.
Variable update_position_smoother : Py.M (MainWindow.t Matchmaker) unit.
Variable update_magnitude_smoother : Py.M (MainWindow.t Matchmaker) unit.

(** What [pair] does once the matcher is replaced: the two smoothers are
    updated, the counters shown and then the plots updated. The flags of
    the plots are not part of the state. *)
Definition smooth_and_show : Py.M (MainWindow.t Matchmaker) Counters :=
  update_position_smoother >>
  update_magnitude_smoother >>
  let* counters := (fun w => (w, Py.Return (showCounts w))) in
  updatePlots >>
  Py.ret counters.

(** [pair], with the value of [self.projection]. *)
Definition pair (projection : Projection)
  : Py.M (MainWindow.t Matchmaker) Counters :=
  let* m := (fun w => (w, MainWindow.Matcher_pair _ Matchmaker_pair
                            (MainWindow.matcher _ w) projection)) in
  Py.modify (fun w => MainWindow.with_matcher _ w m) >>
  smooth_and_show.

End Masks.

End Controls.

(** ** The plots *)

Module Matplotlib.

(** [Normalize(vmin, vmax)] called on an array: all zeros when the two
    bounds are equal, a [ValueError] ([None] here) when [vmin] is above
    [vmax], the linear map of [vmin, vmax] to [0, 1] otherwise. *)
Definition Normalize (vmin vmax : R) (a : Numpy.vector) : option Numpy.vector :=
  if Req_dec_T vmin vmax then Some (map (fun _ => 0) a)
  else if Rlt_dec vmax vmin then None
  else Some (map (fun v => (v - vmin) / (vmax - vmin)) a).

(** The arrows of a [quiver] call: positions, components, colour values,
    and the scale when one is given. *)
Record Quiver : Type := {
  X : Numpy.vector; Y : Numpy.vector;
  U : Numpy.vector; V : Numpy.vector;
  C : Numpy.vector;
  scale : option R
}.

(** [axis.quiver(X, Y, U, V, C, ...)] on five arrays of shape (N): a
    [ValueError] ([None] here) when their sizes do not agree. *)
Definition quiver (x y u v c : Numpy.vector) (scale : option R) : option Quiver :=
  if Nat.eqb (length y) (length x) && Nat.eqb (length u) (length x)
     && Nat.eqb (length v) (length x) && Nat.eqb (length c) (length x)
  then Some {| X := x; Y := y; U := u; V := v; C := c; scale := scale |}
  else None.

(** An attribute that holds a quiver: none yet, one that is drawn, or
    one that has been removed from the axes. *)
Inductive slot : Type :=
| NoQuiver
| Drawn (q : Quiver)
| Removed (q : Quiver).

(** [if slot is not None: slot.remove()]. *)
Definition remove (s : slot) : slot :=
  match s with
  | Drawn q => Removed q
  | other => other
  end.

End Matplotlib.

Module BaseSkyPlot.

Section Plot.

(** The colours and the colour maps are matplotlib's. *)
Variable Colour : Type.
Variable white red cyan : Colour.
Variable cmap_stars : R -> Colour.

(** A scatter artist: where the markers are, their sizes, their face
    colours. *)
Record Scatter : Type := {
  offsets : Numpy.ndarray;
  sizes : Numpy.vector;
  facecolors : list Colour
}.

(** The attributes of the plot once [add_axes] has run. *)
Record t : Type := {
  scatter_stars : Scatter;
  scatter_dots : Scatter;
  scatter_meteor : Scatter;
  valid_stars : bool;
  valid_dots : bool;
  valid_meteor : bool
}.

(** The limits [add_axes] sets: the angle and the radius of the chart. *)
Definition xlim : R * R := (0, 2 * Numpy.pi).
Definition ylim : R * R := (0, 90).

(** [to_chart]: column 1 as it is, then column 0 in degrees. *)
Definition to_chart (positions : Numpy.ndarray) : Numpy.ndarray :=
  map (fun p => (snd p, Numpy.degrees (fst p))) positions.

(** [__init__] followed by [add_axes]: three empty scatters, nothing
    valid. *)
Definition add_axes : t :=
  {| scatter_stars := {| offsets := []; sizes := []; facecolors := [white] |};
     scatter_dots := {| offsets := []; sizes := []; facecolors := [red] |};
     scatter_meteor := {| offsets := []; sizes := []; facecolors := [cyan] |};
     valid_stars := false; valid_dots := false; valid_meteor := false |}.

(** [invalidate_stars]. *)
Definition invalidate_stars (p : t) : t :=
  {| scatter_stars := scatter_stars p; scatter_dots := scatter_dots p;
     scatter_meteor := scatter_meteor p;
     valid_stars := false; valid_dots := valid_dots p;
     valid_meteor := valid_meteor p |}.

(** [invalidate_dots]. *)
Definition invalidate_dots (p : t) : t :=
  {| scatter_stars := scatter_stars p; scatter_dots := scatter_dots p;
     scatter_meteor := scatter_meteor p;
     valid_stars := valid_stars p; valid_dots := false;
     valid_meteor := valid_meteor p |}.

(** [invalidate_meteor]. *)
Definition invalidate_meteor (p : t) : t :=
  {| scatter_stars := scatter_stars p; scatter_dots := scatter_dots p;
     scatter_meteor := scatter_meteor p;
     valid_stars := valid_stars p; valid_dots := valid_dots p;
     valid_meteor := false |}.



Definition with_scatter_dots (p : t) (s : Scatter) : t :=
  {| scatter_stars := scatter_stars p; scatter_dots := s;
     scatter_meteor := scatter_meteor p;
     valid_stars := valid_stars p; valid_dots := valid_dots p;
     valid_meteor := valid_meteor p |}.

(** [update_dots]: the offsets are set first, then the colours (the
    normalisation can raise), then the sizes and the flag. *)
Definition update_dots (positions : Numpy.ndarray) (magnitudes errors : Numpy.vector)
           (limit : R) : Py.M t unit :=
  Py.modify (fun p => with_scatter_dots p
    {| offsets := to_chart positions; sizes := sizes (scatter_dots p);
       facecolors := facecolors (scatter_dots p) |}) >>
  let* normed := Py.of_option (Matplotlib.Normalize 0 limit errors) in
  Py.modify (fun p => with_scatter_dots p
    {| offsets := offsets (scatter_dots p); sizes := sizes (scatter_dots p);
       facecolors := map cmap_stars normed |}) >>
  Py.modify (fun p => with_scatter_dots p
    {| offsets := offsets (scatter_dots p);
       sizes := map (fun m => 0.03 * m) magnitudes;
       facecolors := facecolors (scatter_dots p) |}) >>
  Py.modify (fun p =>
    {| scatter_stars := scatter_stars p; scatter_dots := scatter_dots p;
       scatter_meteor := scatter_meteor p;
       valid_stars := valid_stars p; valid_dots := true;
       valid_meteor := valid_meteor p |}).

End Plot.

End BaseSkyPlot.

Module VectorErrorPlot.

Import Matplotlib.

(** Column 0 and column 1 of a (N, 2) array. *)
Definition column0 (a : Numpy.ndarray) : Numpy.vector := map fst a.
Definition column1 (a : Numpy.ndarray) : Numpy.vector := map snd a.

(** The length [sqrt(u**2 + v**2)] of an arrow. *)
Definition hypot (u v : R) : R := sqrt (u ^ 2 + v ^ 2).

Section Plot.

(** [altaz_to_disk] and [proj_to_disk] of the utilities are not under
    src/; they map an array to an array. *)
Variable altaz_to_disk : Numpy.ndarray -> Numpy.ndarray.
Variable proj_to_disk : Numpy.ndarray -> Numpy.ndarray.

(** The attributes of the plot once [add_axes] has run. *)
Record t : Type := {
  scatterDots_offsets : Numpy.ndarray;
  scatterDots_sizes : Numpy.vector;
  scatterMeteor_offsets : Numpy.ndarray;
  scatterMeteor_sizes : Numpy.vector;
  quiver_dots : slot;
  quiver_grid : slot;
  quiver_meteor : slot;
  valid_dots : bool;
  valid_grid : bool;
  valid_meteor : bool
}.

(** [add_axes]. *)
Definition add_axes : t :=
  {| scatterDots_offsets := []; scatterDots_sizes := [];
     scatterMeteor_offsets := []; scatterMeteor_sizes := [];
     quiver_dots := NoQuiver; quiver_grid := NoQuiver; quiver_meteor := NoQuiver;
     valid_dots := false; valid_grid := false; valid_meteor := false |}.

Definition set_scatterDots (o : Numpy.ndarray) (s : Numpy.vector) (p : t) : t :=
  {| scatterDots_offsets := o; scatterDots_sizes := s;
     scatterMeteor_offsets := scatterMeteor_offsets p;
     scatterMeteor_sizes := scatterMeteor_sizes p;
     quiver_dots := quiver_dots p; quiver_grid := quiver_grid p;
     quiver_meteor := quiver_meteor p;
     valid_dots := valid_dots p; valid_grid := valid_grid p;
     valid_meteor := valid_meteor p |}.

Definition set_quiver_dots (q : slot) (p : t) : t :=
  {| scatterDots_offsets := scatterDots_offsets p;
     scatterDots_sizes := scatterDots_sizes p;
     scatterMeteor_offsets := scatterMeteor_offsets p;
     scatterMeteor_sizes := scatterMeteor_sizes p;
     quiver_dots := q; quiver_grid := quiver_grid p;
     quiver_meteor := quiver_meteor p;
     valid_dots := valid_dots p; valid_grid := valid_grid p;
     valid_meteor := valid_meteor p |}.

Definition set_quiver_grid (q : slot) (p : t) : t :=
  {| scatterDots_offsets := scatterDots_offsets p;
     scatterDots_sizes := scatterDots_sizes p;
     scatterMeteor_offsets := scatterMeteor_offsets p;
     scatterMeteor_sizes := scatterMeteor_sizes p;
     quiver_dots := quiver_dots p; quiver_grid := q;
     quiver_meteor := quiver_meteor p;
     valid_dots := valid_dots p; valid_grid := valid_grid p;
     valid_meteor := valid_meteor p |}.

(** [update_dots], with the values of [limit] and [scale]. The scatter is
    updated and the old quiver removed before the arguments of the new
    quiver are computed; the subtractions broadcast. *)
Definition update_dots (cat obs : Numpy.ndarray) (limit scale : R)
  : Py.M t unit :=
  let cat := altaz_to_disk cat in
  let obs := proj_to_disk obs in
  Py.modify (set_scatterDots cat (map (fun _ => 1 * 4) (column0 cat))) >>
  Py.modify (fun p => set_quiver_dots (remove (quiver_dots p)) p) >>
  let* u := Py.of_option (Numpy.broadcast Rminus (column0 obs) (column0 cat)) in
  let* v := Py.of_option (Numpy.broadcast Rminus (column1 obs) (column1 cat)) in
  let* lengths := Py.of_option (Numpy.broadcast hypot u v) in
  let* c := Py.of_option (Normalize 0 limit lengths) in
  let* q := Py.of_option (quiver (column0 cat) (column1 cat) u v c (Some scale)) in
  Py.modify (set_quiver_dots (Drawn q)).

(** [update_grid], with the value of [limit]: the normalisation is built
    and not used, the colour of an arrow is its length. *)
Definition update_grid (x y u v : Numpy.vector) (limit : R) : Py.M t unit :=
  Py.modify (fun p => set_quiver_grid (remove (quiver_grid p)) p) >>
  let* c := Py.of_option (Numpy.broadcast hypot u v) in
  let* q := Py.of_option (quiver x y u v c None) in
  Py.modify (set_quiver_grid (Drawn q)).

End Plot.

End VectorErrorPlot.

(** ** More of the small session *)

Module DemoMore.

Import Masked.

(** Three stars, all valid. *)
Definition three_stars : Catalogue.t :=
  [ Entry {| Catalogue.sky := (10, 0); Catalogue.vmag := 1 |} true;
    Entry {| Catalogue.sky := (45, 90); Catalogue.vmag := 5 |} true;
    Entry {| Catalogue.sky := (80, 180); Catalogue.vmag := 7 |} true ].

(** Two dots, both valid. *)
Definition two_dots : DotCollection.t :=
  [ Entry {| DotCollection.xy := (0, 0); DotCollection.m := 1 |} true;
    Entry {| DotCollection.xy := (1, 0); DotCollection.m := 2 |} true ].


Definition counselor_of (c : Catalogue.t) (d : DotCollection.t)
           (k : option Counselor.Smoother) : Counselor.t :=
  {| Counselor.location := Demo.site; Counselor.time := 0%Z;
     Counselor.projection_cls := Demo.projection_cls;
     Counselor.catalogue := c;
     Counselor.sensor_data :=
       {| SensorData.stars := d; SensorData.meteor := Demo.track |};
     Counselor.smoother := k |}.

(** Three valid stars against two valid dots. *)
Definition mismatched : Counselor.t := counselor_of three_stars two_dots None.

(** Three valid stars against one valid dot. *)
Definition one_dot : Counselor.t := counselor_of three_stars Demo.stars None.


(** Two dots whose flags are those of [Demo.catalogue] the other way
    round. *)
Definition crossed_dots : DotCollection.t :=
  [ Entry {| DotCollection.xy := (0, 0); DotCollection.m := 1 |} false;
    Entry {| DotCollection.xy := (1, 0); DotCollection.m := 2 |} true ].

Definition crossed_sensor_data : SensorData.t :=
  {| SensorData.stars := crossed_dots; SensorData.meteor := Demo.track |}.



(** A smoother that corrects nothing. *)
Definition still : Counselor.Smoother := map (fun _ => (0, 0)).

Definition uncorrected : Counselor.t :=
  counselor_of Demo.catalogue Demo.stars (Some still).

(** An optimizer that fails. *)
Definition failing (m : MainWindow.Matcher Empty_set) (x0 : Constants) (maxiter : Z)
  : Py.outcome CalibrationOptimizer.OptimizeResult :=
  Py.Raise Py.ValueError.



(** A session with no file on disk. *)
Definition session : ConstantsFile.Session Empty_set :=
  {| ConstantsFile.window := Demo.window;
     ConstantsFile.projection := Demo.projection;
     ConstantsFile.files := ∅;
     ConstantsFile.log := [] |}.

(** A document without the parameter [y0]. *)
Definition partial : Yaml.Document :=
  {| Yaml.proj := "Borovicka";
     Yaml.params := <["x0" := 5]> ∅ |}.

Definition session_with_partial : ConstantsFile.Session Empty_set :=
  {| ConstantsFile.window := Demo.window;
     ConstantsFile.projection := Demo.projection;
     ConstantsFile.files := <["partial.yaml" := Yaml.Text partial]> ∅;
     ConstantsFile.log := [] |}.

(** Twelve boxes at zero. *)
Definition blank_parameters : MainWindow.Parameters :=
  {| MainWindow.dsb_x0 := 0; MainWindow.dsb_y0 := 0; MainWindow.dsb_a0 := 0;
     MainWindow.dsb_A := 0; MainWindow.dsb_F := 0; MainWindow.dsb_V := 0;
     MainWindow.dsb_S := 0; MainWindow.dsb_D := 0; MainWindow.dsb_P := 0;
     MainWindow.dsb_Q := 0; MainWindow.dsb_eps := 0; MainWindow.dsb_E := 0 |}.

(** Every directory exists. *)
Definition anywhere : string -> bool := fun _ => true.

End DemoMore.

(** * Properties *)

(** ** Collections with validity flags *)

Module MaskedFacts.

Import Masked.

Section Facts.
Context {A B : Type}.

Lemma count_apply_mask (r : rule) (c : list (entry A)) (m : mask) :
  count (apply_mask r c m) = count c.
Proof.
  unfold count. revert m.
  induction c as [|e c IH]; intros [|b m]; simpl; auto.
Qed.

Lemma count_valid_le_count (c : list (entry A)) :
  (count_valid c <= count c)%nat.
Proof.
  unfold count_valid, count.
  induction c as [|e c IH]; simpl; [lia|].
  destruct (valid e); simpl; lia.
Qed.

(** The flags after a mask call are a function of the flags before. *)
Lemma flags_apply_mask (r : rule) (c : list (entry A)) (d : list (entry B))
      (m : mask) :
  flags c = flags d -> flags (apply_mask r c m) = flags (apply_mask r d m).
Proof.
  unfold flags. revert d m.
  induction c as [|e c IH]; intros [|e' d] m H; simpl in *; try discriminate.
  - reflexivity.
  - injection H as Hv Hrest.
    destruct m as [|b m]; simpl.
    + now rewrite Hv, Hrest.
    + rewrite Hv. f_equal. now apply IH.
Qed.

(** When the mask replaces the flags, the flags after a call on a mask
    of the right length are the complement of the mask. *)
Lemma flags_apply_assign (c : list (entry A)) (m : mask) :
  length m = count c -> flags (apply_mask assign c m) = map negb m.
Proof.
  unfold flags, count. revert m.
  induction c as [|e c IH]; intros [|b m] H; simpl in *; try discriminate; auto.
  f_equal. apply IH. lia.
Qed.

(** The number of valid entries is a function of the flags. *)
Lemma count_valid_flags (c : list (entry A)) (d : list (entry B)) :
  flags c = flags d -> count_valid c = count_valid d.
Proof.
  unfold flags, count_valid. revert d.
  induction c as [|e c IH]; intros [|e' d] H; simpl in *; try discriminate.
  - reflexivity.
  - injection H as Hv Hrest. rewrite Hv.
    destruct (valid e'); simpl; auto.
Qed.

Lemma count_flags (c : list (entry A)) (d : list (entry B)) :
  flags c = flags d -> count c = count d.
Proof.
  unfold flags, count. intros H.
  rewrite <- (length_map valid c), <- (length_map valid d). now rewrite H.
Qed.

Lemma flags_cull (c : list (entry A)) (d : list (entry B)) :
  flags c = flags d -> flags (cull c) = flags (cull d).
Proof.
  unfold flags, cull. revert d.
  induction c as [|e c IH]; intros [|e' d] H; simpl in *; try discriminate.
  - reflexivity.
  - injection H as Hv Hrest. rewrite Hv.
    destruct (valid e') eqn:E'; simpl; rewrite ?Hv; auto.
    rewrite E'. f_equal; auto.
Qed.

(** Every entry that survives a cull is valid. *)
Lemma cull_all_valid (c : list (entry A)) :
  List.filter valid (cull c) = cull c.
Proof.
  unfold cull. induction c as [|e c IH]; simpl; auto.
  destruct (valid e) eqn:E; simpl; auto.
  rewrite E. now f_equal.
Qed.


Lemma count_valid_cull (c : list (entry A)) :
  count_valid (cull c) = count (cull c).
Proof. unfold count_valid, count. now rewrite cull_all_valid. Qed.

Lemma count_cull (c : list (entry A)) :
  count (cull c) = count_valid c.
Proof. reflexivity. Qed.


Lemma select_length (c : list (entry A)) (d : list (entry B)) (masked : bool) :
  flags c = flags d -> length (select masked c) = length (select masked d).
Proof.
  intros H. unfold select. rewrite !length_map.
  destruct masked.
  - apply (count_valid_flags c d H).
  - apply (count_flags c d H).
Qed.

End Facts.

End MaskedFacts.

(** ** The small session, evaluated *)

Module DemoFacts.

Import Masked.

Example demo_counts :
  Catalogue.count Demo.catalogue = 2%nat
  /\ Catalogue.count_valid Demo.catalogue = 1%nat
  /\ DotCollection.count_valid Demo.stars = 1%nat.
Proof. repeat split. Qed.

(** Masking the first pair leaves no valid pair, and no entry is lost. *)
Example demo_mask_first :
  let c := Counselor.mask_catalogue reduce Demo.counselor [true; false] in
  flags (Counselor.catalogue c) = [false; false]
  /\ flags (SensorData.stars (Counselor.sensor_data c)) = [false; false]
  /\ Counselor.count c = 2%nat.
Proof. repeat split. Qed.

(** A mask bit that is off does not bring a masked entry back. *)
Example demo_mask_none :
  flags (Catalogue.set_mask reduce Demo.catalogue [false; false])
  = [true; false].
Proof. reflexivity. Qed.

(** Under the other reading the flags are the complement of the mask. *)
Example demo_mask_assign :
  flags (DotCollection.set_mask assign Demo.stars [false; false])
  = [true; true].
Proof. reflexivity. Qed.

(** Pairing keeps the one valid pair. *)
Example demo_pair :
  let c := Counselor.pair Demo.counselor Demo.projection in
  Counselor.count c = 1%nat
  /\ map item (Counselor.catalogue c)
     = [ {| Catalogue.sky := (0, 0); Catalogue.vmag := 1 |} ]
  /\ map item (SensorData.stars (Counselor.sensor_data c))
     = [ {| DotCollection.xy := (0, 0); DotCollection.m := 1 |} ].
Proof. repeat split. Qed.

(** The constructor accepts the two collections of equal count. *)
Example demo_new :
  snd (Counselor.new Demo.site 0%Z Demo.projection_cls Demo.catalogue
                     Demo.sensor_data [])
  = Py.Return tt.
Proof. reflexivity. Qed.

(** The corrected track: every point shifted by (1, 0). *)
Example demo_correct_meteor :
  Counselor.correct_meteor (fun a => a) (fun a => a) Demo.counselor
                           Demo.projection
  = Py.Return [(0 + 1, 0 + 0); (1 + 1, 1 + 0)].
Proof. reflexivity. Qed.

(** Broadcasting: equal lengths, a single row, and a shape error. *)
Example demo_broadcast :
  Numpy.broadcast Nat.add [1; 2]%nat [10; 20]%nat = Some [11; 22]%nat
  /\ Numpy.broadcast Nat.add [1]%nat [10; 20]%nat = Some [11; 21]%nat
  /\ Numpy.broadcast Nat.add [1; 2; 3]%nat [10; 20]%nat = None.
Proof. repeat split. Qed.

End DemoFacts.

(** ** Masking and pairing of a Counselor *)

Module CounselorFacts.

Import Counselor Paired.

Lemma aligned_balanced (c : t) : aligned c -> balanced c.
Proof. intros H. exact (MaskedFacts.count_valid_flags _ _ H). Qed.

Lemma aligned_count (c : t) :
  aligned c ->
  Catalogue.count (catalogue c)
  = DotCollection.count (SensorData.stars (sensor_data c)).
Proof. intros H. exact (MaskedFacts.count_flags _ _ H). Qed.

Lemma aligned_mask_catalogue (r : Masked.rule) (c : t) (mask : Masked.mask) :
  aligned c -> aligned (mask_catalogue r c mask).
Proof. intros H. exact (MaskedFacts.flags_apply_mask r _ _ mask H). Qed.

(** Under the reading of a mask call as an assignment, the equal counts
    that the constructor asserts are enough: one call with a mask of that
    length makes the pairs positional. *)
Lemma aligned_after_assignment (c : t) (mask : Masked.mask) :
  DotCollection.count (SensorData.stars (sensor_data c))
  = Catalogue.count (catalogue c) ->
  length mask = Catalogue.count (catalogue c) ->
  aligned (mask_catalogue Masked.assign c mask).
Proof.
  intros Hc Hm. unfold aligned, mask_catalogue; simpl.
  unfold Catalogue.set_mask, DotCollection.set_mask.
  rewrite (MaskedFacts.flags_apply_assign (catalogue c) mask Hm).
  rewrite (MaskedFacts.flags_apply_assign (SensorData.stars (sensor_data c)) mask);
    [reflexivity|].
  unfold DotCollection.count, Catalogue.count in *. congruence.
Qed.

Lemma aligned_apply_op (r : Masked.rule) (c : t) (op : MaskOp) :
  aligned c -> aligned (apply_op r c op).
Proof. destruct op; simpl; apply aligned_mask_catalogue. Qed.

Lemma aligned_apply_ops (r : Masked.rule) (ops : list MaskOp) (c : t) :
  aligned c -> aligned (apply_ops r c ops).
Proof.
  unfold apply_ops. revert c.
  induction ops as [|op ops IH]; intros c H; simpl; auto.
  apply IH, aligned_apply_op, H.
Qed.

Lemma aligned_pair (c : t) (projection : Projection) :
  aligned c -> aligned (pair c projection).
Proof. intros H. exact (MaskedFacts.flags_cull _ _ H). Qed.

(** The flags after a mask call, from the flags before. *)
Lemma flags_set_mask {A : Type} (r : Masked.rule) (c : list (Masked.entry A))
      (mask : Masked.mask) :
  Masked.flags (Masked.apply_mask r c mask) = mask_flags r (Masked.flags c) mask.
Proof.
  unfold Masked.flags. revert mask.
  induction c as [|e c IH]; intros [|b mask]; simpl; auto.
  now rewrite IH.
Qed.

(** After [cull] every flag is set. *)
Lemma flags_cull_all {A : Type} (c : list (Masked.entry A)) :
  Masked.flags (Masked.cull c) = repeat true (Masked.count_valid c).
Proof.
  unfold Masked.flags, Masked.cull, Masked.count_valid.
  induction c as [|e c IH]; simpl; [reflexivity|].
  destruct (Masked.valid e) eqn:E; simpl; [|exact IH].
  now rewrite E, IH.
Qed.

(** [pair] makes the pairs of a balanced Counselor positional. *)
Lemma balanced_pair_aligned (c : t) (projection : Projection) :
  balanced c -> aligned (pair c projection).
Proof.
  intros H. unfold aligned, pair; simpl.
  unfold Catalogue.cull, DotCollection.cull.
  rewrite !flags_cull_all.
  unfold balanced, Catalogue.count_valid, DotCollection.count_valid in H.
  now rewrite H.
Qed.

(** C1, as the code has it. For a Counselor whose pairs are positional
    (the flags of the catalogue and of the sensor dots agree index by
    index), every masking call, [mask_catalogue] or [mask_sensor_data],
    applies its mask to both sides: after any sequence of such calls the
    flags on either side are what the masks make of the flags before, the
    pairs are still positional, the number of valid catalogue entries
    equals the number of valid sensor dots, and no entry has been removed
    on either side. *)
Theorem masking_keeps_valid_counts_equal (r : Masked.rule) (c : t)
        (ops : list MaskOp) :
  aligned c ->
  let c' := apply_ops r c ops in
  Masked.flags (catalogue c') = flags_after r (Masked.flags (catalogue c)) ops
  /\ Masked.flags (SensorData.stars (sensor_data c'))
     = flags_after r (Masked.flags (SensorData.stars (sensor_data c))) ops
  /\ aligned c'
  /\ Catalogue.count_valid (catalogue c')
     = DotCollection.count_valid (SensorData.stars (sensor_data c'))
  /\ Catalogue.count (catalogue c') = Catalogue.count (catalogue c)
  /\ DotCollection.count (SensorData.stars (sensor_data c'))
     = DotCollection.count (SensorData.stars (sensor_data c)).
Proof.
  intros H c'.
  assert (Ha : aligned c') by (apply aligned_apply_ops, H).
  assert (Hf : Masked.flags (catalogue c')
               = flags_after r (Masked.flags (catalogue c)) ops
               /\ Masked.flags (SensorData.stars (sensor_data c'))
                  = flags_after r (Masked.flags (SensorData.stars (sensor_data c))) ops).
  { subst c'. unfold apply_ops, flags_after. clear H Ha. revert c.
    induction ops as [|op ops IH]; intros c; simpl; [split; reflexivity|].
    destruct (IH (apply_op r c op)) as [IH1 IH2]. rewrite IH1, IH2.
    destruct op; simpl; unfold Catalogue.set_mask, DotCollection.set_mask;
      now rewrite !flags_set_mask. }
  destruct Hf as [Hf1 Hf2].
  split; [exact Hf1|]. split; [exact Hf2|].
  split; [exact Ha|]. split; [exact (aligned_balanced _ Ha)|].
  subst c'. unfold apply_ops. clear H Ha Hf1 Hf2. revert c.
  induction ops as [|op ops IH]; intros c; simpl; [split; reflexivity|].
  destruct (IH (apply_op r c op)) as [IH1 IH2].
  rewrite IH1, IH2.
  destruct op; simpl; split; apply MaskedFacts.count_apply_mask.
Qed.

Lemma masking_keeps_valid_counts_equal_witness :
  aligned Demo.counselor
  /\ let c' := apply_ops Masked.reduce Demo.counselor
                 [MaskCatalogue [true; false]; MaskSensorData [false]] in
     Masked.flags (catalogue c') = [false; false]
     /\ Masked.flags (SensorData.stars (sensor_data c')) = [false; false]
     /\ Catalogue.count_valid (catalogue c')
        = DotCollection.count_valid (SensorData.stars (sensor_data c'))
     /\ Catalogue.count (catalogue c') = Catalogue.count (catalogue Demo.counselor).
Proof.
  assert (H : aligned Demo.counselor) by reflexivity.
  split; [exact H|].
  destruct (masking_keeps_valid_counts_equal Masked.reduce Demo.counselor
              [MaskCatalogue [true; false]; MaskSensorData [false]] H)
    as (H1 & H2 & _ & H4 & H5 & _).
  split; [exact H1|]. split; [exact H2|]. split; [exact H4 | exact H5].
Defined.

(** C1, as stated, fails. The constructor accepts a catalogue and sensor
    dots of equal count whose flags sit at different indices; the valid
    counts agree (one each), and one [mask_catalogue] call that masks the
    first pair leaves no valid star and one valid dot. *)
Lemma masking_can_unbalance :
  exists (s : InitState) (c : t),
    new Demo.site 0%Z Demo.projection_cls Demo.catalogue
        DemoMore.crossed_sensor_data []
    = (s, Py.Return tt)
    /\ instance (self s) = Some c
    /\ balanced c
    /\ Catalogue.count_valid
         (catalogue (mask_catalogue Masked.reduce c [true; false])) = 0%nat
    /\ DotCollection.count_valid
         (SensorData.stars
            (sensor_data (mask_catalogue Masked.reduce c [true; false]))) = 1%nat
    /\ ~ balanced (mask_catalogue Masked.reduce c [true; false]).
Proof.
  eexists _, _. split; [reflexivity|]. split; [reflexivity|].
  split; [reflexivity|]. split; [reflexivity|]. split; [reflexivity|].
  unfold balanced. simpl. discriminate.
Qed.


(** *** Construction *)

Lemma init_accepts_equal_counts
      (l : Location) (tm : Time) (p : ProjectionCls)
      (cat : Catalogue.t) (sd : SensorData.t) (out : list line) :
  DotCollection.count (SensorData.stars sd) = Catalogue.count cat ->
  exists s,
    new l tm p cat sd out = (s, Py.Return tt)
    /\ instance (self s)
       = Some {| location := l; time := tm; projection_cls := p;
                 catalogue := cat; sensor_data := sd; smoother := None |}.
Proof.
  intros H. unfold new, __init__, Py.bind, Py.assert. simpl.
  rewrite H, Nat.eqb_refl. simpl.
  eexists; split; reflexivity.
Qed.

(** C2. Constructing a Counselor from a catalogue and sensor data whose
    counts differ raises the assertion error, and it is raised before the
    new instance gets its [catalogue], [sensor_data] or [smoother]
    attribute and before anything is printed: only the base constructor
    has run, and the instance is not complete. *)
Theorem init_rejects_unequal_counts
        (l : Location) (tm : Time) (p : ProjectionCls)
        (cat : Catalogue.t) (sd : SensorData.t) (out : list line) :
  DotCollection.count (SensorData.stars sd) <> Catalogue.count cat ->
  exists s,
    new l tm p cat sd out = (s, Py.Raise Py.AssertionError)
    /\ f_catalogue (self s) = None
    /\ f_sensor_data (self s) = None
    /\ f_smoother (self s) = None
    /\ instance (self s) = None
    /\ stdout s = out.
Proof.
  intros H. unfold new, __init__, Py.bind, Py.assert. simpl.
  apply Nat.eqb_neq in H. rewrite H. simpl.
  eexists; repeat split.
Qed.

Lemma init_rejects_unequal_counts_witness :
  DotCollection.count (SensorData.stars Demo.sensor_data)
  <> Catalogue.count Demo.short_catalogue
  /\ exists s,
       new Demo.site 0%Z Demo.projection_cls Demo.short_catalogue
           Demo.sensor_data []
       = (s, Py.Raise Py.AssertionError)
       /\ f_catalogue (self s) = None
       /\ f_sensor_data (self s) = None
       /\ f_smoother (self s) = None
       /\ instance (self s) = None
       /\ stdout s = [].
Proof.
  assert (H : DotCollection.count (SensorData.stars Demo.sensor_data)
              <> Catalogue.count Demo.short_catalogue) by (simpl; lia).
  split.
  - exact H.
  - apply (init_rejects_unequal_counts Demo.site 0%Z Demo.projection_cls
             Demo.short_catalogue Demo.sensor_data [] H).
Defined.

End CounselorFacts.

(** ** numpy and the store *)

Module NumpyFacts.

Import Numpy.

Section Map2.
Context {A B C : Type} (f : A -> B -> C).

Lemma map2_length (xs : list A) (ys : list B) :
  length xs = length ys -> length (map2 f xs ys) = length xs.
Proof.
  revert ys. induction xs as [|x xs IH]; intros [|y ys] H; simpl in *;
    try discriminate; auto.
Qed.

Lemma map2_lookup (xs : list A) (ys : list B) (i : nat) (x : A) (y : B) :
  xs !! i = Some x -> ys !! i = Some y -> map2 f xs ys !! i = Some (f x y).
Proof.
  revert ys i. induction xs as [|x' xs IH]; intros [|y' ys] [|i] Hx Hy;
    simpl in *; try discriminate.
  - now injection Hx as ->; injection Hy as ->.
  - now apply IH.
Qed.

Lemma broadcast_same_length (xs : list A) (ys : list B) :
  length xs = length ys -> broadcast f xs ys = Some (map2 f xs ys).
Proof. intros H. unfold broadcast. now rewrite H, Nat.eqb_refl. Qed.

End Map2.

End NumpyFacts.

Module StoreFacts.

Import Py.

Lemma fresh_not_in (s : Store) : s !! fresh (dom s) = None.
Proof. apply not_elem_of_dom, is_fresh. Qed.

(** A new array leaves the arrays that exist where they are. *)
Lemma alloc_spec (a : Numpy.ndarray) (s : Store) :
  exists r, alloc a s = (<[r := a]> s, Return r) /\ s !! r = None.
Proof. exists (fresh (dom s)). split; [reflexivity | apply fresh_not_in]. Qed.


End StoreFacts.

(** ** The great-circle formula *)

Module GeometryFacts.

Import Utilities.

Lemma great_circle_same (p : Numpy.row) : great_circle p p = 0.
Proof.
  unfold great_circle.
  replace (snd p - snd p) with 0 by ring.
  rewrite cos_0, Rmult_1_r.
  pose proof (sin2_cos2 (fst p)) as H. unfold Rsqr in H.
  replace (cos (fst p) * cos (fst p) + sin (fst p) * sin (fst p)) with 1 by lra.
  apply acos_1.
Qed.

Lemma great_circle_sym (p q : Numpy.row) : great_circle p q = great_circle q p.
Proof.
  unfold great_circle. f_equal.
  replace (snd q - snd p) with (- (snd p - snd q)) by ring.
  rewrite cos_neg. ring.
Qed.

(** A distance is an angle between 0 and pi. *)
Lemma great_circle_range (p q : Numpy.row) : 0 <= great_circle p q <= PI.
Proof. apply acos_bound. Qed.

End GeometryFacts.

(** ** Errors of a Counselor *)

Module ErrorFacts.

Import Py Counselor.

Section Distances.

Variable angular_distance : Numpy.row -> Numpy.row -> R.
Variable altaz_deg : Location -> Time -> Numpy.row -> Numpy.row.

(** What one call of [compute_distances] does to the store. *)
Lemma compute_distances_run (observed catalogue : ref) (o c : Numpy.ndarray)
      (s : Store) :
  s !! observed = Some o ->
  s !! catalogue = Some c ->
  compute_distances angular_distance observed catalogue s
  = of_option (Utilities.spherical_distance angular_distance
                 (Numpy.co_altitude_arr o) (Numpy.radians_arr c))
              (<[observed := Numpy.co_altitude_arr o]> s).
Proof.
  intros Ho Hc.
  unfold compute_distances, bind, read, write, modify.
  rewrite Hc, Ho. simpl. rewrite lookup_insert_eq. reflexivity.
Qed.

Lemma compute_vector_errors_run (observed catalogue : ref) (o c : Numpy.ndarray)
      (s : Store) :
  s !! observed = Some o ->
  s !! catalogue = Some c ->
  compute_vector_errors observed catalogue s
  = of_option (Utilities.spherical_difference
                 (Numpy.co_altitude_arr o) (Numpy.radians_arr c))
              (<[observed := Numpy.co_altitude_arr o]> s).
Proof.
  intros Ho Hc.
  unfold compute_vector_errors, bind, read, write, modify.
  rewrite Hc, Ho. simpl. rewrite lookup_insert_eq. reflexivity.
Qed.

Lemma of_option_store {A : Type} (o : option A) (s : Store) :
  fst (of_option o s) = s.
Proof. destruct o; reflexivity. Qed.

(** The array behind [catalogue] is read, never written, when it is not
    the array behind [observed]. *)
Lemma compute_distances_keeps_catalogue (observed catalogue : ref) (s : Store) :
  observed <> catalogue ->
  fst (compute_distances angular_distance observed catalogue s) !! catalogue
  = s !! catalogue.
Proof.
  intros Hne.
  destruct (s !! catalogue) as [c|] eqn:Hc.
  - destruct (s !! observed) as [o|] eqn:Ho.
    + rewrite (compute_distances_run _ _ o c s Ho Hc), of_option_store.
      now rewrite lookup_insert_ne.
    + unfold compute_distances, bind, read. rewrite Hc, Ho. simpl. exact Hc.
  - unfold compute_distances, bind, read. rewrite Hc. simpl. exact Hc.
Qed.


(** C10. [errors_inverse] is [errors]: for every projection, masking flag
    and store the two calls return the same array (or raise the same
    exception) and leave the same store. *)
Theorem errors_inverse_is_errors (self : t) (projection : Projection)
        (masked : bool) (s : Store) :
  errors_inverse angular_distance altaz_deg self projection masked s
  = errors angular_distance altaz_deg self projection masked s.
Proof. reflexivity. Qed.

End Distances.

(** Positional pairs select as many dots as stars, with either flag. *)
Lemma aligned_selects_pairs (self : t) (masked : bool) :
  Paired.aligned self ->
  length (Masked.select masked (SensorData.stars (sensor_data self)))
  = length (Masked.select masked (catalogue self)).
Proof.
  intros H. symmetry. exact (MaskedFacts.select_length _ _ masked H).
Qed.

(** The equal counts that the constructor asserts select as many dots as
    stars when nothing is masked out. *)
Lemma equal_counts_select_pairs (self : t) :
  DotCollection.count (SensorData.stars (sensor_data self))
  = Catalogue.count (catalogue self) ->
  length (Masked.select false (SensorData.stars (sensor_data self)))
  = length (Masked.select false (catalogue self)).
Proof. intros H. unfold Masked.select. now rewrite !length_map. Qed.


End ErrorFacts.

(** ** In-place assignment and the azimuth residual *)

Module DefectFacts.

Import Py Counselor.

(** A store with an observed array at reference 1 and a catalogue array at
    reference 2. *)
Lemma two_arrays (o c : Numpy.ndarray) :
  let s : Store := <[1%positive := o]> (<[2%positive := c]> ∅) in
  s !! 1%positive = Some o /\ s !! 2%positive = Some c.
Proof.
  split.
  - apply lookup_insert_eq.
  - rewrite lookup_insert_ne by discriminate. apply lookup_insert_eq.
Qed.

Lemma half_pi_not_zero : Numpy.pi / 2 - 0 <> 0.
Proof. unfold Numpy.pi. pose proof PI_RGT_0. lra. Qed.

(** C6, as the code has it. [compute_distances] and
    [compute_vector_errors] have one effect besides their result: the array
    behind [observed] gets its column 0 replaced by pi / 2 minus itself.
    Every other array is left as it was, the one behind [catalogue]
    included when it is another array than [observed]. *)
Theorem error_functions_write_observed_only
        (angular_distance : Numpy.row -> Numpy.row -> R)
        (observed catalogue : ref) (o c : Numpy.ndarray) (s : Store) :
  s !! observed = Some o ->
  s !! catalogue = Some c ->
  let after_d :=
    fst (compute_distances angular_distance observed catalogue s) in
  let after_v := fst (compute_vector_errors observed catalogue s) in
  after_d = <[observed := Numpy.co_altitude_arr o]> s
  /\ after_v = <[observed := Numpy.co_altitude_arr o]> s
  /\ (observed <> catalogue ->
      after_d !! catalogue = Some c /\ after_v !! catalogue = Some c)
  /\ (forall k : ref, k <> observed ->
        after_d !! k = s !! k /\ after_v !! k = s !! k).
Proof.
  intros Ho Hc after_d after_v.
  assert (Ed : after_d = <[observed := Numpy.co_altitude_arr o]> s).
  { subst after_d.
    rewrite (ErrorFacts.compute_distances_run _ _ _ _ _ _ Ho Hc).
    apply ErrorFacts.of_option_store. }
  assert (Ev : after_v = <[observed := Numpy.co_altitude_arr o]> s).
  { subst after_v.
    rewrite (ErrorFacts.compute_vector_errors_run _ _ _ _ _ Ho Hc).
    apply ErrorFacts.of_option_store. }
  rewrite Ed, Ev. repeat split; try reflexivity.
  - rewrite lookup_insert_ne by assumption. exact Hc.
  - rewrite lookup_insert_ne by assumption. exact Hc.
  - rewrite lookup_insert_ne by auto. reflexivity.
  - rewrite lookup_insert_ne by auto. reflexivity.
Qed.

Lemma error_functions_write_observed_only_witness :
  let s : Store := <[1%positive := [(0, 0)]]> (<[2%positive := [(1, 350)]]> ∅) in
  s !! 1%positive = Some [(0, 0)]
  /\ s !! 2%positive = Some [(1, 350)]
  /\ fst (compute_distances Utilities.great_circle 1%positive 2%positive s)
     = <[1%positive := Numpy.co_altitude_arr [(0, 0)]]> s
  /\ fst (compute_vector_errors 1%positive 2%positive s)
     = <[1%positive := Numpy.co_altitude_arr [(0, 0)]]> s.
Proof.
  intros s.
  destruct (two_arrays [(0, 0)] [(1, 350)]) as [Ho Hc].
  split; [exact Ho|]. split; [exact Hc|].
  destruct (error_functions_write_observed_only Utilities.great_circle
              1%positive 2%positive [(0, 0)] [(1, 350)] s Ho Hc)
    as (Hd & Hv & _).
  split; [exact Hd | exact Hv].
Defined.

(** C6, as stated, fails. Called on a one-row array (0, 0), each of the
    two functions leaves (pi / 2, 0) behind the caller's reference: the
    array given as [observed] is not what it was before the call. *)
Lemma error_functions_overwrite_observed :
  let observed : Numpy.ndarray := [(0, 0)] in
  let catalogue : Numpy.ndarray := [(0, 0)] in
  let before : Store := <[1%positive := observed]> (<[2%positive := catalogue]> ∅) in
  let after_d :=
    fst (compute_distances Utilities.great_circle 1%positive 2%positive before) in
  let after_v := fst (compute_vector_errors 1%positive 2%positive before) in
  before !! 1%positive = Some [(0, 0)]
  /\ after_d !! 1%positive = Some [(Numpy.pi / 2 - 0, 0)]
  /\ after_v !! 1%positive = Some [(Numpy.pi / 2 - 0, 0)]
  /\ after_d !! 1%positive <> before !! 1%positive
  /\ after_v !! 1%positive <> before !! 1%positive.
Proof.
  intros observed catalogue before after_d after_v.
  destruct (two_arrays observed catalogue) as [Ho Hc].
  assert (Ed : after_d = <[1%positive := [(Numpy.pi / 2 - 0, 0)]]> before).
  { subst after_d before.
    rewrite (ErrorFacts.compute_distances_run _ _ _ _ _ _ Ho Hc).
    apply ErrorFacts.of_option_store. }
  assert (Ev : after_v = <[1%positive := [(Numpy.pi / 2 - 0, 0)]]> before).
  { subst after_v before.
    rewrite (ErrorFacts.compute_vector_errors_run _ _ _ _ _ Ho Hc).
    apply ErrorFacts.of_option_store. }
  assert (Hneq : Some [(Numpy.pi / 2 - 0, 0)] <> before !! 1%positive).
  { subst before. rewrite Ho. subst observed. intros H. injection H as H.
    now apply half_pi_not_zero. }
  rewrite Ed, Ev. rewrite !lookup_insert_eq.
  repeat split; auto.
Qed.

(** C5. The azimuth residual of [compute_vector_errors] is the plain
    difference of the two azimuths: for an observed azimuth of 10 degrees
    (pi / 18) and a catalogue azimuth of 350 degrees the reported residual
    is -17 pi / 9, which is in neither range of one turn, while the wrapped
    residual is pi / 9. *)
Theorem vector_errors_azimuth_not_wrapped :
  let observed : Numpy.ndarray := [(0, PI / 18)] in
  let catalogue : Numpy.ndarray := [(0, 350)] in
  let before : Store := <[1%positive := observed]> (<[2%positive := catalogue]> ∅) in
  exists (after : Store) (dz az : R),
    compute_vector_errors 1%positive 2%positive before
    = (after, Return [(dz, az)])
    /\ az = - (17 / 9) * PI
    /\ ~ Azimuth.wrapped az
    /\ Azimuth.wrapped (az + 2 * PI)
    /\ az + 2 * PI = PI / 9.
Proof.
  intros observed catalogue before.
  destruct (two_arrays observed catalogue) as [Ho Hc].
  subst before.
  eexists _, _, _. split.
  { etransitivity;
      [exact (ErrorFacts.compute_vector_errors_run _ _ _ _ _ Ho Hc)|].
    reflexivity. }
  simpl. unfold Numpy.radians, Azimuth.wrapped, Azimuth.wrapped_signed,
         Azimuth.wrapped_unsigned.
  pose proof PI_RGT_0.
  repeat split; lra.
Qed.

End DefectFacts.

(** ** The corrected meteor *)

Module MeteorFacts.

Import Py Counselor.

Section Correction.

Variable proj_to_disk : Numpy.ndarray -> Numpy.ndarray.
Variable disk_to_altaz : Numpy.ndarray -> Numpy.ndarray.

(** Without a smoother the correction is a [TypeError]. *)
Lemma correct_meteor_without_smoother (self : t) (projection : Projection) :
  smoother self = None ->
  correct_meteor proj_to_disk disk_to_altaz self projection = Raise TypeError.
Proof. intros H. unfold correct_meteor, call_smoother. now rewrite H. Qed.

(** C3. With a built smoother, [correct_meteor] is the composition of the
    specification: the track is projected, mapped to the disk, the
    smoother's correction at those disk points is added, and the sum is
    mapped back to the sky. When the smoother gives one correction per
    point the result is [disk_to_altaz] of the row-wise sums, and the
    correction added is the one [correction_meteor_xy] returns. *)
Theorem correct_meteor_is_composition (self : t) (projection : Projection)
        (k : Smoother) :
  smoother self = Some k ->
  let xy := MeteorSpec.disk_points proj_to_disk
              (SensorData.meteor (sensor_data self)) projection in
  correct_meteor proj_to_disk disk_to_altaz self projection
  = MeteorSpec.corrected_track proj_to_disk disk_to_altaz k
      (SensorData.meteor (sensor_data self)) projection
  /\ correction_meteor_xy proj_to_disk self projection = Return (k xy)
  /\ (length (k xy) = length xy ->
      correct_meteor proj_to_disk disk_to_altaz self projection
      = Return (disk_to_altaz (Numpy.map2 Numpy.row_add xy (k xy)))).
Proof.
  intros Hk xy. subst xy.
  unfold correct_meteor, correction_meteor_xy, MeteorSpec.corrected_track,
         MeteorSpec.disk_points, call_smoother.
  rewrite Hk. split; [|split].
  - destruct (add _ _); reflexivity.
  - reflexivity.
  - intros Hlen. unfold add.
    rewrite NumpyFacts.broadcast_same_length by (symmetry; exact Hlen).
    reflexivity.
Qed.

End Correction.

Lemma correct_meteor_is_composition_witness :
  smoother Demo.counselor = Some Demo.shift
  /\ correct_meteor (fun a => a) (fun a => a) Demo.counselor Demo.projection
     = MeteorSpec.corrected_track (fun a => a) (fun a => a) Demo.shift
         Demo.track Demo.projection.
Proof.
  split.
  - reflexivity.
  - exact (proj1 (correct_meteor_is_composition (fun a => a) (fun a => a)
                    Demo.counselor Demo.projection Demo.shift eq_refl)).
Defined.

End MeteorFacts.

(** ** The parameter boundary and the optimizer *)

Module BoundaryFacts.

Import Py CalibrationOptimizer MainWindow.

(** The eight parameters that are not angles pass through the tuple as
    they are; the four angles appear in radians. *)
Lemma getConstantsTuple_positions (p : Parameters) :
  getConstantsTuple p
  = (dsb_x0 p, dsb_y0 p, dsb_a0 p * (PI / 180), dsb_A p,
     dsb_F p * (PI / 180), dsb_V p, dsb_S p, dsb_D p, dsb_P p, dsb_Q p,
     dsb_eps p * (PI / 180), dsb_E p * (PI / 180)).
Proof. reflexivity. Qed.

Section Window.

Variable Matchmaker : Type.
Variable matcher_minimize :
  Matcher Matchmaker -> Constants -> Z -> outcome OptimizeResult.
Variable onParametersChanged : M (t Matchmaker) unit.


End Window.



End BoundaryFacts.


(** ** More on the Counselor: construction, meteor, errors *)

Module CounselorMore.

Import Py Counselor.

Lemma row_add_zero (p : Numpy.row) : Numpy.row_add p (0, 0) = p.
Proof. destruct p as [a b]. unfold Numpy.row_add. simpl. f_equal; ring. Qed.

Lemma map2_add_zero (xy : Numpy.ndarray) :
  Numpy.map2 Numpy.row_add xy (map (fun _ => (0, 0)) xy) = xy.
Proof.
  induction xy as [|p xy IH]; simpl; [reflexivity|].
  now rewrite row_add_zero, IH.
Qed.

Lemma select_cull_any {A : Type} (c : list (Masked.entry A)) (masked : bool) :
  Masked.select masked (Masked.cull c) = Masked.select true c.
Proof.
  unfold Masked.select. destruct masked.
  - now rewrite MaskedFacts.cull_all_valid.
  - reflexivity.
Qed.

Section Meteor.

Variable proj_to_disk : Numpy.ndarray -> Numpy.ndarray.
Variable disk_to_altaz : Numpy.ndarray -> Numpy.ndarray.

(** X1. A Counselor constructed from collections of equal count holds the
    catalogue and the sensor data it was given, as they are, and no
    smoother; the three lines are printed. Until a smoother is set,
    [correct_meteor] and [correction_meteor_xy] raise a [TypeError]. *)
Theorem new_counselor_has_no_smoother
        (l : Location) (tm : Time) (p : ProjectionCls)
        (cat : Catalogue.t) (sd : SensorData.t) (out : list line)
        (projection : Projection) :
  DotCollection.count (SensorData.stars sd) = Catalogue.count cat ->
  exists (s : InitState) (c : t),
    new l tm p cat sd out = (s, Return tt)
    /\ instance (self s) = Some c
    /\ catalogue c = cat
    /\ sensor_data c = sd
    /\ stdout s = out ++ [Created (Catalogue.count cat);
                          ShowCatalogue cat; ShowSensorData sd]
    /\ correct_meteor proj_to_disk disk_to_altaz c projection = Raise TypeError
    /\ correction_meteor_xy proj_to_disk c projection = Raise TypeError.
Proof.
  intros H. unfold new, __init__, bind, assert. simpl.
  rewrite H, Nat.eqb_refl. simpl.
  eexists _, _. split; [reflexivity|]. simpl.
  split; [reflexivity|]. simpl.
  repeat split. now rewrite <- !app_assoc.
Qed.

(** X2. A smoother that returns a zero correction for every point makes
    [correct_meteor] return what [project_meteor] returns. *)
Theorem zero_correction_is_projection (self : t) (projection : Projection)
        (k : Smoother) :
  smoother self = Some k ->
  (forall xy : Numpy.ndarray, k xy = map (fun _ => (0, 0)) xy) ->
  correct_meteor proj_to_disk disk_to_altaz self projection
  = Return (project_meteor proj_to_disk disk_to_altaz self projection).
Proof.
  intros Hk Hz. unfold correct_meteor, project_meteor, call_smoother, add.
  rewrite Hk, Hz.
  rewrite NumpyFacts.broadcast_same_length by now rewrite length_map.
  now rewrite map2_add_zero.
Qed.

End Meteor.

Lemma new_counselor_has_no_smoother_witness :
  DotCollection.count (SensorData.stars Demo.sensor_data)
  = Catalogue.count Demo.catalogue
  /\ exists (s : InitState) (c : t),
       new Demo.site 0%Z Demo.projection_cls Demo.catalogue Demo.sensor_data []
       = (s, Return tt)
       /\ instance (self s) = Some c
       /\ correct_meteor (fun a => a) (fun a => a) c Demo.projection
          = Raise TypeError.
Proof.
  split; [reflexivity|].
  destruct (new_counselor_has_no_smoother (fun a => a) (fun a => a)
              Demo.site 0%Z Demo.projection_cls Demo.catalogue
              Demo.sensor_data [] Demo.projection eq_refl)
    as (s & c & Hn & Hi & _ & _ & _ & Hc & _).
  exists s, c. repeat split; assumption.
Defined.

Lemma zero_correction_is_projection_witness :
  smoother DemoMore.uncorrected = Some DemoMore.still
  /\ (forall xy : Numpy.ndarray, DemoMore.still xy = map (fun _ => (0, 0)) xy)
  /\ correct_meteor (fun a => a) (fun a => a) DemoMore.uncorrected Demo.projection
     = Return (project_meteor (fun a => a) (fun a => a) DemoMore.uncorrected
                              Demo.projection).
Proof.
  split; [reflexivity|]. split; [reflexivity|].
  apply (zero_correction_is_projection (fun a => a) (fun a => a)
           DemoMore.uncorrected Demo.projection DemoMore.still).
  - reflexivity.
  - reflexivity.
Defined.

End CounselorMore.

Module ErrorsMore.

Import Py Counselor.

Lemma of_option_outcome {A : Type} (o : option A) (s s' : Store) :
  snd (of_option o s) = snd (of_option o s').
Proof. destruct o; reflexivity. Qed.

Lemma broadcast_mismatch {A B C : Type} (f : A -> B -> C)
      (xs : list A) (ys : list B) :
  length xs <> length ys -> length xs <> 1%nat -> length ys <> 1%nat ->
  Numpy.broadcast f xs ys = None.
Proof.
  intros Hne Hx Hy. unfold Numpy.broadcast.
  apply Nat.eqb_neq in Hne. rewrite Hne.
  destruct xs as [|x [|x' xs]]; destruct ys as [|y [|y' ys]];
    simpl in *; try reflexivity; congruence.
Qed.

Lemma broadcast_single {A B C : Type} (f : A -> B -> C) (x : A) (ys : list B) :
  Numpy.broadcast f [x] ys = Some (map (f x) ys).
Proof.
  unfold Numpy.broadcast. simpl.
  destruct ys as [|y [|y' ys]]; reflexivity.
Qed.

Section Distances.

Variable angular_distance : Numpy.row -> Numpy.row -> R.
Variable altaz_deg : Location -> Time -> Numpy.row -> Numpy.row.

(** One run of [errors]: two new arrays, the first of them converted in
    place, and the distances of the two. *)
Lemma errors_run (self : t) (projection : Projection) (masked : bool) (s : Store) :
  let obs := DotCollection.project (SensorData.stars (sensor_data self))
                                   projection masked in
  let cat := Catalogue.to_altaz_deg altaz_deg (catalogue self)
                                    (location self) (time self) masked in
  exists r1 r2 : ref,
    s !! r1 = None /\ s !! r2 = None /\ r2 <> r1
    /\ errors angular_distance altaz_deg self projection masked s
       = of_option (Utilities.spherical_distance angular_distance
                      (Numpy.co_altitude_arr obs) (Numpy.radians_arr cat))
                   (<[r1 := Numpy.co_altitude_arr obs]>
                      (<[r2 := cat]> (<[r1 := obs]> s))).
Proof.
  intros obs cat.
  destruct (StoreFacts.alloc_spec obs s) as (r1 & E1 & F1).
  destruct (StoreFacts.alloc_spec cat (<[r1 := obs]> s)) as (r2 & E2 & F2).
  assert (Hne : r2 <> r1).
  { intros ->. rewrite lookup_insert_eq in F2. discriminate. }
  exists r1, r2. split; [exact F1|]. split.
  { rewrite lookup_insert_ne in F2 by auto. exact F2. }
  split; [exact Hne|].
  unfold errors, bind. fold obs cat. rewrite E1, E2.
  apply ErrorFacts.compute_distances_run.
  - rewrite lookup_insert_ne by exact Hne. apply lookup_insert_eq.
  - apply lookup_insert_eq.
Qed.

(** X3. [errors] never changes an array of its caller, whether it returns
    or raises, and what it returns or raises does not depend on the
    arrays that exist: two calls give the same outcome. *)
Theorem errors_leaves_store_and_repeats (self : t) (projection : Projection)
        (masked : bool) (s1 s2 : Store) :
  snd (errors angular_distance altaz_deg self projection masked s1)
  = snd (errors angular_distance altaz_deg self projection masked s2)
  /\ snd (errors angular_distance altaz_deg self projection masked
            (fst (errors angular_distance altaz_deg self projection masked s1)))
     = snd (errors angular_distance altaz_deg self projection masked s1)
  /\ (forall (k : ref) (a : Numpy.ndarray),
         s1 !! k = Some a ->
         fst (errors angular_distance altaz_deg self projection masked s1) !! k
         = Some a).
Proof.
  assert (Hind : forall sa sb : Store,
             snd (errors angular_distance altaz_deg self projection masked sa)
             = snd (errors angular_distance altaz_deg self projection masked sb)).
  { intros sa sb.
    destruct (errors_run self projection masked sa) as (a1 & a2 & _ & _ & _ & Ea).
    destruct (errors_run self projection masked sb) as (b1 & b2 & _ & _ & _ & Eb).
    rewrite Ea, Eb. apply of_option_outcome. }
  split; [apply Hind|]. split; [apply Hind|].
  intros k a Hk.
  destruct (errors_run self projection masked s1) as (r1 & r2 & F1 & F2 & Hne & E).
  rewrite E, ErrorFacts.of_option_store.
  assert (k <> r1) by (intros ->; rewrite F1 in Hk; discriminate).
  assert (k <> r2) by (intros ->; rewrite F2 in Hk; discriminate).
  now rewrite !lookup_insert_ne by auto.
Qed.

(** X4. After [pair] the masking flag makes no difference, and pairing
    does not change the masked errors: for either flag, [errors] on the
    paired Counselor is [errors] with [masked=True] before the call. *)
Theorem errors_after_pair (self : t) (p projection : Projection)
        (masked : bool) (s : Store) :
  errors angular_distance altaz_deg (pair self p) projection masked s
  = errors angular_distance altaz_deg self projection true s.
Proof.
  unfold errors, pair; simpl.
  unfold DotCollection.project, Catalogue.to_altaz_deg,
         DotCollection.cull, Catalogue.cull.
  now rewrite !CounselorMore.select_cull_any.
Qed.

(** X5. When the numbers of selected dots and of selected stars differ
    and neither is one, [errors] raises a [ValueError]. *)
Theorem errors_shape_mismatch (self : t) (projection : Projection)
        (masked : bool) (s : Store) :
  let dots := Masked.select masked (SensorData.stars (sensor_data self)) in
  let stars := Masked.select masked (catalogue self) in
  length dots <> length stars ->
  length dots <> 1%nat ->
  length stars <> 1%nat ->
  snd (errors angular_distance altaz_deg self projection masked s)
  = Raise ValueError.
Proof.
  intros dots stars Hne Hd Hs.
  destruct (errors_run self projection masked s) as (r1 & r2 & _ & _ & _ & E).
  rewrite E. unfold Utilities.spherical_distance.
  rewrite broadcast_mismatch; [reflexivity| | |];
    unfold Numpy.co_altitude_arr, Numpy.radians_arr,
           DotCollection.project, Catalogue.to_altaz_deg;
    rewrite ?length_map; assumption.
Qed.

(** X6. When exactly one dot is selected, [errors] does not raise,
    however many stars are selected: it returns one distance per selected
    star, each of them measured from that one dot. *)
Theorem errors_single_dot_broadcasts (self : t) (projection : Projection)
        (masked : bool) (s : Store) (d : DotCollection.Dot) :
  Masked.select masked (SensorData.stars (sensor_data self)) = [d] ->
  snd (errors angular_distance altaz_deg self projection masked s)
  = Return (map (fun st =>
                   angular_distance
                     (Numpy.co_altitude (projection (DotCollection.xy d)))
                     (Numpy.radians_row
                        (altaz_deg (location self) (time self) (Catalogue.sky st))))
                (Masked.select masked (catalogue self))).
Proof.
  intros Hd.
  destruct (errors_run self projection masked s) as (r1 & r2 & _ & _ & _ & E).
  rewrite E. unfold Utilities.spherical_distance, DotCollection.project.
  rewrite Hd. simpl. rewrite broadcast_single. simpl.
  unfold Numpy.radians_arr, Catalogue.to_altaz_deg.
  now rewrite !map_map.
Qed.

(** X7. A second call of [compute_distances] on the same two arrays
    converts the observed array once more: after it the array holds
    pi/2 minus (pi/2 minus the altitude) in column 0, and the second call
    measures from those rows, not from the co-altitudes the first call
    measured from. The catalogue array is turned to radians from its
    unchanged degrees both times. On float64 numbers the array is not
    always what it was at the start: an altitude of 0.1 is not given
    back. *)
Theorem compute_distances_twice (observed catalogue : ref)
        (o c : Numpy.ndarray) (s : Store) :
  s !! observed = Some o ->
  s !! catalogue = Some c ->
  observed <> catalogue ->
  let once := compute_distances angular_distance observed catalogue s in
  let twice := compute_distances angular_distance observed catalogue (fst once) in
  fst twice
  = <[observed := Numpy.co_altitude_arr (Numpy.co_altitude_arr o)]> s
  /\ fst twice !! catalogue = Some c
  /\ once = of_option (Utilities.spherical_distance angular_distance
                         (Numpy.co_altitude_arr o) (Numpy.radians_arr c))
                      (<[observed := Numpy.co_altitude_arr o]> s)
  /\ snd twice
     = snd (of_option (Utilities.spherical_distance angular_distance
                         (Numpy.co_altitude_arr (Numpy.co_altitude_arr o))
                         (Numpy.radians_arr c)) s)
  /\ Float64.co_altitude (Float64.co_altitude 0x1.999999999999ap-4)
     <> 0x1.999999999999ap-4%float.
Proof.
  intros Ho Hc Hne once twice.
  assert (E1 : once = of_option (Utilities.spherical_distance angular_distance
                         (Numpy.co_altitude_arr o) (Numpy.radians_arr c))
                      (<[observed := Numpy.co_altitude_arr o]> s)).
  { subst once. now apply ErrorFacts.compute_distances_run. }
  assert (E2 : twice = of_option (Utilities.spherical_distance angular_distance
                         (Numpy.co_altitude_arr (Numpy.co_altitude_arr o))
                         (Numpy.radians_arr c))
                      (<[observed := Numpy.co_altitude_arr (Numpy.co_altitude_arr o)]> s)).
  { subst twice. rewrite E1, ErrorFacts.of_option_store.
    rewrite (ErrorFacts.compute_distances_run angular_distance observed catalogue
               (Numpy.co_altitude_arr o) c).
    - now rewrite insert_insert_eq.
    - apply lookup_insert_eq.
    - now rewrite lookup_insert_ne. }
  split; [rewrite E2; apply ErrorFacts.of_option_store|].
  split; [rewrite E2, ErrorFacts.of_option_store;
          now rewrite lookup_insert_ne|].
  split; [exact E1|].
  split; [rewrite E2; apply of_option_outcome|].
  intros E. apply (f_equal (fun f => PrimFloat.eqb f 0x1.999999999999ap-4)) in E.
  vm_compute in E. discriminate.
Qed.

End Distances.


Lemma errors_shape_mismatch_witness :
  length (Masked.select true (SensorData.stars (sensor_data DemoMore.mismatched)))
  <> length (Masked.select true (catalogue DemoMore.mismatched))
  /\ snd (errors Utilities.great_circle Demo.altaz_deg DemoMore.mismatched
                 Demo.projection true ∅)
     = Raise ValueError.
Proof.
  assert (H : length (Masked.select true
                        (SensorData.stars (sensor_data DemoMore.mismatched)))
              <> length (Masked.select true (catalogue DemoMore.mismatched)))
    by (simpl; lia).
  split; [exact H|].
  apply (errors_shape_mismatch Utilities.great_circle Demo.altaz_deg
           DemoMore.mismatched Demo.projection true ∅ H); simpl; lia.
Defined.

Lemma errors_single_dot_broadcasts_witness :
  Masked.select true (SensorData.stars (sensor_data DemoMore.one_dot))
  = [ {| DotCollection.xy := (0, 0); DotCollection.m := 1 |} ]
  /\ exists r : Numpy.vector,
       snd (errors Utilities.great_circle Demo.altaz_deg DemoMore.one_dot
                   Demo.projection true ∅)
       = Return r
       /\ length r = 3%nat.
Proof.
  split; [reflexivity|].
  eexists. split.
  - apply (errors_single_dot_broadcasts Utilities.great_circle Demo.altaz_deg
             DemoMore.one_dot Demo.projection true ∅
             {| DotCollection.xy := (0, 0); DotCollection.m := 1 |}).
    reflexivity.
  - reflexivity.
Defined.

Lemma compute_distances_twice_witness :
  let s : Store := <[1%positive := [(0, 0)]]> (<[2%positive := [(1, 350)]]> ∅) in
  s !! 1%positive = Some [(0, 0)]
  /\ s !! 2%positive = Some [(1, 350)]
  /\ 1%positive <> 2%positive
  /\ fst (compute_distances Utilities.great_circle 1%positive 2%positive
            (fst (compute_distances Utilities.great_circle 1%positive
                    2%positive s)))
     = <[1%positive := Numpy.co_altitude_arr (Numpy.co_altitude_arr [(0, 0)])]> s.
Proof.
  intros s.
  destruct (DefectFacts.two_arrays [(0, 0)] [(1, 350)]) as [Ho Hc].
  assert (Hne : 1%positive <> 2%positive) by discriminate.
  split; [exact Ho|]. split; [exact Hc|]. split; [exact Hne|].
  exact (proj1 (compute_distances_twice Utilities.great_circle
                  1%positive 2%positive [(0, 0)] [(1, 350)] s Ho Hc Hne)).
Defined.

End ErrorsMore.

(** ** More on the main window: optimisation, files, masks, counters *)

Module WindowMore.

Import Py CalibrationOptimizer.

Section Optimisation.

Variable Matchmaker : Type.
Variable matcher_minimize :
  MainWindow.Matcher Matchmaker -> Constants -> Z -> outcome OptimizeResult.
Variable onParametersChanged : M (MainWindow.t Matchmaker) unit.


(** X9. When the optimizer raises, [minimize] raises the same exception:
    the spin boxes keep their values and the input panel stays
    disabled. *)
Theorem minimize_failure_leaves_panel_disabled (w : MainWindow.t Matchmaker)
        (e : exn) :
  matcher_minimize (MainWindow.matcher _ w)
                   (MainWindow.getConstantsTuple (MainWindow.parameters _ w))
                   (MainWindow.sb_maxiter _ w) = Raise e ->
  exists w',
    MainWindow.minimize Matchmaker matcher_minimize onParametersChanged w
    = (w', Raise e)
    /\ MainWindow.w_input_enabled _ w' = false
    /\ MainWindow.parameters _ w' = MainWindow.parameters _ w
    /\ MainWindow.matcher _ w' = MainWindow.matcher _ w.
Proof.
  intros Hrun.
  unfold MainWindow.minimize, bind, modify. simpl. rewrite Hrun. simpl.
  eexists. repeat split.
Qed.

End Optimisation.


Lemma minimize_failure_leaves_panel_disabled_witness :
  DemoMore.failing (MainWindow.matcher _ Demo.window)
                   (MainWindow.getConstantsTuple (MainWindow.parameters _ Demo.window))
                   (MainWindow.sb_maxiter _ Demo.window)
  = Raise ValueError
  /\ exists w',
       MainWindow.minimize Empty_set DemoMore.failing (ret tt) Demo.window
       = (w', Raise ValueError)
       /\ MainWindow.w_input_enabled _ w' = false.
Proof.
  split; [reflexivity|].
  destruct (minimize_failure_leaves_panel_disabled Empty_set DemoMore.failing
              (ret tt) Demo.window ValueError eq_refl)
    as (w' & Hrun & He & _).
  exists w'. split; [exact Hrun | exact He].
Defined.

Import ParamWidgets ConstantsFile.

(** The parameters of the dumped document, name by name. *)

Lemma document_x0 (p : MainWindow.Parameters) :
  Yaml.params (document p) !! "x0" = Some (MainWindow.dsb_x0 p).
Proof.
  unfold document; simpl.
  repeat (rewrite lookup_insert_ne by discriminate).
  apply lookup_insert_eq.
Qed.

Lemma document_y0 (p : MainWindow.Parameters) :
  Yaml.params (document p) !! "y0" = Some (MainWindow.dsb_y0 p).
Proof.
  unfold document; simpl.
  repeat (rewrite lookup_insert_ne by discriminate).
  apply lookup_insert_eq.
Qed.

Lemma document_a0 (p : MainWindow.Parameters) :
  Yaml.params (document p) !! "a0" = Some (MainWindow.dsb_a0 p).
Proof.
  unfold document; simpl.
  repeat (rewrite lookup_insert_ne by discriminate).
  apply lookup_insert_eq.
Qed.

Lemma document_A (p : MainWindow.Parameters) :
  Yaml.params (document p) !! "A" = Some (MainWindow.dsb_A p).
Proof.
  unfold document; simpl.
  repeat (rewrite lookup_insert_ne by discriminate).
  apply lookup_insert_eq.
Qed.

Lemma document_F (p : MainWindow.Parameters) :
  Yaml.params (document p) !! "F" = Some (MainWindow.dsb_F p).
Proof.
  unfold document; simpl.
  repeat (rewrite lookup_insert_ne by discriminate).
  apply lookup_insert_eq.
Qed.

Lemma document_V (p : MainWindow.Parameters) :
  Yaml.params (document p) !! "V" = Some (MainWindow.dsb_V p).
Proof.
  unfold document; simpl.
  repeat (rewrite lookup_insert_ne by discriminate).
  apply lookup_insert_eq.
Qed.

Lemma document_S (p : MainWindow.Parameters) :
  Yaml.params (document p) !! "S" = Some (MainWindow.dsb_S p).
Proof.
  unfold document; simpl.
  repeat (rewrite lookup_insert_ne by discriminate).
  apply lookup_insert_eq.
Qed.

Lemma document_D (p : MainWindow.Parameters) :
  Yaml.params (document p) !! "D" = Some (MainWindow.dsb_D p).
Proof.
  unfold document; simpl.
  repeat (rewrite lookup_insert_ne by discriminate).
  apply lookup_insert_eq.
Qed.

Lemma document_P (p : MainWindow.Parameters) :
  Yaml.params (document p) !! "P" = Some (MainWindow.dsb_P p).
Proof.
  unfold document; simpl.
  repeat (rewrite lookup_insert_ne by discriminate).
  apply lookup_insert_eq.
Qed.

Lemma document_Q (p : MainWindow.Parameters) :
  Yaml.params (document p) !! "Q" = Some (MainWindow.dsb_Q p).
Proof.
  unfold document; simpl.
  repeat (rewrite lookup_insert_ne by discriminate).
  apply lookup_insert_eq.
Qed.

Lemma document_eps (p : MainWindow.Parameters) :
  Yaml.params (document p) !! "eps" = Some (MainWindow.dsb_eps p).
Proof.
  unfold document; simpl.
  repeat (rewrite lookup_insert_ne by discriminate).
  apply lookup_insert_eq.
Qed.

Lemma document_E (p : MainWindow.Parameters) :
  Yaml.params (document p) !! "E" = Some (MainWindow.dsb_E p).
Proof.
  unfold document; simpl.
  repeat (rewrite lookup_insert_ne by discriminate).
  apply lookup_insert_eq.
Qed.
Section Files.

Variable Matchmaker : Type.
Variable BorovickaProjection : ProjectionCls.
Variable creatable : string -> bool.

Local Abbreviation Session := (Session Matchmaker).
Local Abbreviation set_widgets := (set_widgets Matchmaker).

(** One turn of the loop on a name the document has. *)
Lemma set_widgets_present (widget : Widget) (param : string)
      (rest : list (Widget * string)) (data : Yaml.Document) (v : R) (s : Session) :
  Yaml.params data !! param = Some v ->
  set_widgets ((widget, param) :: rest) data s
  = set_widgets rest data
      (on_window _ (fun w =>
         MainWindow.with_parameters _ w
           (setValue widget v (MainWindow.parameters _ w))) s).
Proof. intros H. simpl. rewrite H. reflexivity. Qed.

(** The loop touches the spin boxes only. *)
Lemma set_widgets_frame (ws : list (Widget * string)) (data : Yaml.Document)
      (s : Session) :
  let s' := fst (set_widgets ws data s) in
  projection _ s' = projection _ s
  /\ files _ s' = files _ s
  /\ log _ s' = log _ s
  /\ MainWindow.parameter_signals_blocked _ (window _ s')
     = MainWindow.parameter_signals_blocked _ (window _ s)
  /\ MainWindow.w_input_enabled _ (window _ s')
     = MainWindow.w_input_enabled _ (window _ s)
  /\ MainWindow.matcher _ (window _ s') = MainWindow.matcher _ (window _ s).
Proof.
  revert s. induction ws as [|[widget param] rest IH]; intros s; simpl.
  - repeat split.
  - destruct (Yaml.params data !! param) as [v|]; simpl.
    + unfold bind, modify. simpl.
      specialize (IH (on_window _ (fun w =>
         MainWindow.with_parameters _ w
           (setValue widget v (MainWindow.parameters _ w))) s)).
      simpl in IH.
      destruct (set_widgets rest data _) as [s' [[]|e]]; simpl in *; exact IH.
    + repeat split.
Qed.

(** The loop raises when the document lacks one of the names. *)
Lemma set_widgets_missing (ws : list (Widget * string)) (data : Yaml.Document)
      (s : Session) :
  (exists name, In name (map snd ws) /\ Yaml.params data !! name = None) ->
  snd (set_widgets ws data s) = Raise TypeError.
Proof.
  revert s. induction ws as [|[widget param] rest IH]; intros s (name & Hin & Hn);
    simpl in *; [contradiction|].
  destruct (Yaml.params data !! param) as [v|] eqn:E; [|reflexivity].
  unfold bind, modify. simpl.
  assert (Hrest : exists name, In name (map snd rest)
                               /\ Yaml.params data !! name = None).
  { destruct Hin as [->|Hin]; [congruence|]. exists name. now split. }
  specialize (IH (on_window _ (fun w =>
     MainWindow.with_parameters _ w
       (setValue widget v (MainWindow.parameters _ w))) s) Hrest).
  destruct (set_widgets rest data _) as [s' [[]|e]]; simpl in *;
    [discriminate | exact IH].
Qed.

(** The boxes after [x0] in the list leave [x0] as it is. *)
Lemma set_widgets_keeps_x0 (ws : list (Widget * string)) (data : Yaml.Document)
      (s : Session) :
  Forall (fun wn => forall v p,
            MainWindow.dsb_x0 (setValue (fst wn) v p) = MainWindow.dsb_x0 p) ws ->
  MainWindow.dsb_x0 (MainWindow.parameters _ (window _ (fst (set_widgets ws data s))))
  = MainWindow.dsb_x0 (MainWindow.parameters _ (window _ s)).
Proof.
  revert s. induction ws as [|[widget param] rest IH]; intros s Hall; simpl.
  - reflexivity.
  - inversion Hall as [|? ? Hw Hrest]; subst. simpl in Hw.
    destruct (Yaml.params data !! param) as [v|]; simpl; [|reflexivity].
    unfold bind, modify. simpl.
    specialize (IH (on_window _ (fun w =>
       MainWindow.with_parameters _ w
         (setValue widget v (MainWindow.parameters _ w))) s) Hrest).
    simpl in IH. rewrite Hw in IH.
    destruct (set_widgets rest data _) as [s' [[]|e]]; simpl in *; exact IH.
Qed.

(** The loop on the dumped document sets the twelve boxes to the dumped
    values. *)
Lemma set_widgets_document (p : MainWindow.Parameters) (s : Session) :
  set_widgets param_widgets (document p) s
  = (on_window _ (fun w => MainWindow.with_parameters _ w p) s, Return tt).
Proof.
  unfold param_widgets.
  rewrite (set_widgets_present _ _ _ _ _ _ (document_x0 p)).
  rewrite (set_widgets_present _ _ _ _ _ _ (document_y0 p)).
  rewrite (set_widgets_present _ _ _ _ _ _ (document_a0 p)).
  rewrite (set_widgets_present _ _ _ _ _ _ (document_A p)).
  rewrite (set_widgets_present _ _ _ _ _ _ (document_F p)).
  rewrite (set_widgets_present _ _ _ _ _ _ (document_V p)).
  rewrite (set_widgets_present _ _ _ _ _ _ (document_S p)).
  rewrite (set_widgets_present _ _ _ _ _ _ (document_D p)).
  rewrite (set_widgets_present _ _ _ _ _ _ (document_P p)).
  rewrite (set_widgets_present _ _ _ _ _ _ (document_Q p)).
  rewrite (set_widgets_present _ _ _ _ _ _ (document_eps p)).
  rewrite (set_widgets_present _ _ _ _ _ _ (document_E p)).
  destruct p; reflexivity.
Qed.

(** X10. The constants round-trip through a file. After an export to a
    file that can be created, whatever the spin boxes are changed to, an
    import from that file gives the twelve boxes the exported values,
    rebuilds the projection from them, unblocks the signals and logs
    nothing. *)
Theorem export_import_round_trip (filename : string) (s : Session)
        (changed : MainWindow.Parameters) :
  creatable filename = true ->
  let exported := fst (_exportProjectionConstants Matchmaker creatable filename s) in
  let edited :=
    on_window _ (fun w => MainWindow.with_parameters _ w changed) exported in
  exists s',
    _importProjectionConstants Matchmaker BorovickaProjection filename edited
    = (s', Return tt)
    /\ MainWindow.parameters _ (window _ s')
       = MainWindow.parameters _ (window _ s)
    /\ projection _ s'
       = BorovickaProjection
           (MainWindow.getConstantsTuple (MainWindow.parameters _ (window _ s)))
    /\ MainWindow.parameter_signals_blocked _ (window _ s') = false
    /\ MainWindow.matcher _ (window _ s') = MainWindow.matcher _ (window _ s)
    /\ files _ s' = files _ exported
    /\ log _ s' = log _ s.
Proof.
  intros Hc exported edited.
  assert (Hfile : files _ edited !! filename
                  = Some (Yaml.Text (document (MainWindow.parameters _ (window _ s))))).
  { subst edited exported. unfold _exportProjectionConstants. rewrite Hc. simpl.
    apply lookup_insert_eq. }
  assert (Hfiles : files _ edited = files _ exported) by reflexivity.
  assert (Hlog : log _ edited = log _ s).
  { subst edited exported. unfold _exportProjectionConstants. now rewrite Hc. }
  assert (Hm : MainWindow.matcher _ (window _ edited)
               = MainWindow.matcher _ (window _ s)).
  { subst edited exported. unfold _exportProjectionConstants. now rewrite Hc. }
  unfold _importProjectionConstants. rewrite Hfile.
  unfold bind at 1. unfold modify at 1.
  unfold bind at 1. rewrite set_widgets_document.
  unfold bind, modify, updateProjection. simpl.
  eexists. split; [reflexivity|]. simpl.
  repeat split; assumption.
Qed.

(** X11. An import from a file that does not exist, or that does not
    parse, changes nothing but the log, which gets one line. *)
Theorem import_without_document (filename : string) (s : Session) :
  files _ s !! filename = None \/ files _ s !! filename = Some Yaml.Unparsable ->
  exists l : logline,
    _importProjectionConstants Matchmaker BorovickaProjection filename s
    = ({| window := window _ s; projection := projection _ s;
          files := files _ s; log := log _ s ++ [l] |}, Return tt)
    /\ (l = CouldNotImport filename \/ l = CouldNotParse filename).
Proof.
  intros [H|H]; unfold _importProjectionConstants; rewrite H.
  - exists (CouldNotImport filename). split; [reflexivity | now left].
  - exists (CouldNotParse filename). split; [reflexivity | now right].
Qed.

(** X12. An import of a document that lacks one of the twelve names
    raises a [TypeError] that is not caught: the signals of the spin
    boxes stay blocked, the projection is not rebuilt, nothing is logged,
    and the boxes before the missing name have taken the values of the
    file ([x0] whenever the document has it). *)
Theorem import_with_missing_parameter (filename : string) (data : Yaml.Document)
        (s : Session) :
  files _ s !! filename = Some (Yaml.Text data) ->
  (exists name, In name (map snd param_widgets)
                /\ Yaml.params data !! name = None) ->
  exists s',
    _importProjectionConstants Matchmaker BorovickaProjection filename s
    = (s', Raise TypeError)
    /\ MainWindow.parameter_signals_blocked _ (window _ s') = true
    /\ projection _ s' = projection _ s
    /\ files _ s' = files _ s
    /\ log _ s' = log _ s
    /\ (forall v, Yaml.params data !! "x0" = Some v ->
                  MainWindow.dsb_x0 (MainWindow.parameters _ (window _ s')) = v).
Proof.
  intros Hfile Hmiss.
  unfold _importProjectionConstants. rewrite Hfile.
  unfold bind at 1. unfold modify at 1.
  set (s0 := on_window _ (MainWindow.blockParameterSignals _ true) s).
  pose proof (set_widgets_missing param_widgets data s0 Hmiss) as Hraise.
  pose proof (set_widgets_frame param_widgets data s0) as Hframe.
  assert (Hx0 : forall v, Yaml.params data !! "x0" = Some v ->
     MainWindow.dsb_x0 (MainWindow.parameters _
        (window _ (fst (set_widgets param_widgets data s0)))) = v).
  { intros v Hv. unfold param_widgets.
    rewrite (set_widgets_present _ _ _ _ _ _ Hv).
    rewrite set_widgets_keeps_x0; [reflexivity|].
    repeat constructor. }
  unfold bind at 1.
  destruct (set_widgets param_widgets data s0) as [s1 [[]|e]] eqn:E;
    simpl in Hraise; [discriminate|].
  injection Hraise as ->. simpl in Hframe, Hx0.
  destruct Hframe as (Hp & Hf & Hl & Hb & _ & _).
  exists s1. split; [reflexivity|].
  repeat split; try assumption.
Qed.

End Files.

Lemma export_import_round_trip_witness :
  DemoMore.anywhere "constants.yaml" = true
  /\ exists s',
       _importProjectionConstants Empty_set Demo.projection_cls "constants.yaml"
         (on_window _ (fun w => MainWindow.with_parameters _ w
                                  DemoMore.blank_parameters)
            (fst (_exportProjectionConstants Empty_set DemoMore.anywhere
                    "constants.yaml" DemoMore.session)))
       = (s', Return tt)
       /\ MainWindow.parameters _ (window _ s') = Demo.parameters.
Proof.
  split; [reflexivity|].
  destruct (export_import_round_trip Empty_set Demo.projection_cls
              DemoMore.anywhere "constants.yaml" DemoMore.session
              DemoMore.blank_parameters eq_refl)
    as (s' & Hrun & Hp & _).
  exists s'. split; [exact Hrun | exact Hp].
Defined.

Lemma import_without_document_witness :
  (files _ DemoMore.session !! "missing.yaml" = None
   \/ files _ DemoMore.session !! "missing.yaml" = Some Yaml.Unparsable)
  /\ exists l : logline,
       _importProjectionConstants Empty_set Demo.projection_cls "missing.yaml"
         DemoMore.session
       = ({| window := window _ DemoMore.session;
             projection := projection _ DemoMore.session;
             files := files _ DemoMore.session;
             log := log _ DemoMore.session ++ [l] |}, Return tt).
Proof.
  assert (H : files _ DemoMore.session !! "missing.yaml" = None
              \/ files _ DemoMore.session !! "missing.yaml" = Some Yaml.Unparsable)
    by (left; reflexivity).
  split; [exact H|].
  destruct (import_without_document Empty_set Demo.projection_cls
              "missing.yaml" DemoMore.session H) as (l & Hrun & _).
  exists l. exact Hrun.
Defined.

Lemma import_with_missing_parameter_witness :
  files _ DemoMore.session_with_partial !! "partial.yaml"
  = Some (Yaml.Text DemoMore.partial)
  /\ (exists name, In name (map snd param_widgets)
                   /\ Yaml.params DemoMore.partial !! name = None)
  /\ exists s',
       _importProjectionConstants Empty_set Demo.projection_cls "partial.yaml"
         DemoMore.session_with_partial
       = (s', Raise TypeError)
       /\ MainWindow.parameter_signals_blocked _ (window _ s') = true.
Proof.
  assert (Hf : files _ DemoMore.session_with_partial !! "partial.yaml"
               = Some (Yaml.Text DemoMore.partial)) by reflexivity.
  assert (Hm : exists name, In name (map snd param_widgets)
                            /\ Yaml.params DemoMore.partial !! name = None).
  { exists "y0"%string. split; [simpl; tauto | reflexivity]. }
  split; [exact Hf|]. split; [exact Hm|].
  destruct (import_with_missing_parameter Empty_set Demo.projection_cls
              "partial.yaml" DemoMore.partial DemoMore.session_with_partial Hf Hm)
    as (s' & Hrun & Hb & _).
  exists s'. split; [exact Hrun | exact Hb].
Defined.

(** X13. The bandwidth is positive for every position of the slider, and
    a higher position gives a strictly smaller bandwidth. *)
Theorem bandwidth_positive_decreasing (low high : Z) :
  (low < high)%Z ->
  0 < Controls.bandwidth high < Controls.bandwidth low.
Proof.
  intros H. unfold Controls.bandwidth, Rpower. split.
  - apply exp_pos.
  - apply exp_increasing.
    assert (Hl : 0 < ln 10).
    { rewrite <- ln_1. apply ln_increasing; lra. }
    apply IZR_lt in H.
    apply Rmult_lt_compat_r; [exact Hl | lra].
Qed.

Lemma bandwidth_positive_decreasing_witness :
  (0 < 100)%Z /\ 0 < Controls.bandwidth 100 < Controls.bandwidth 0.
Proof.
  split; [lia|]. apply (bandwidth_positive_decreasing 0 100). lia.
Defined.

Section Masks.

Variable Matchmaker : Type.
Variable Matchmaker_pair : Matchmaker -> Projection -> outcome Counselor.t.
Variable Matchmaker_catalogue : Matchmaker -> Catalogue.t.
Variable Matchmaker_sensor_data : Matchmaker -> SensorData.t.
Variable Matchmaker_mask_catalogue : Matchmaker -> Masked.mask -> Matchmaker.
Variable rule : Masked.rule.
Variable computePositionErrors : M (MainWindow.t Matchmaker) unit.
Variable computeMagnitudeErrors : M (MainWindow.t Matchmaker) unit.
Variable updatePlots : M (MainWindow.t Matchmaker) unit.
Variable update_position_smoother : M (MainWindow.t Matchmaker) unit.
Variable update_magnitude_smoother : M (MainWindow.t Matchmaker) unit.

(** A mask computed entry by entry is applied entry by entry. *)
Lemma apply_mask_pointwise {A : Type} (h : Masked.entry A -> bool)
      (c : list (Masked.entry A)) :
  Masked.apply_mask rule c (map h c)
  = map (fun e => Masked.Entry (Masked.item e) (rule (Masked.valid e) (h e))) c.
Proof. induction c as [|e c IH]; simpl; [reflexivity | now rewrite IH]. Qed.

(** X14. [maskCatalogueFaint] on a paired window whose pairs are
    positional sets the mask before anything that can fail: the errors
    are computed again, the plots updated and the counters shown on a
    window in which, when a set mask bit makes an entry invalid, no star
    that is still valid is fainter than the limit, the dots have gone
    with their stars (the pairs are still positional and the two numbers
    of valid entries agree), no entry has been removed, the window is
    still paired and the spin boxes are as they were. *)
Theorem maskCatalogueFaint_masks_pairs (limit : R) (w : MainWindow.t Matchmaker)
        (c : Counselor.t) :
  MainWindow.matcher _ w = MainWindow.IsCounselor _ c ->
  Paired.aligned c ->
  (forall v : bool, rule v true = false) ->
  exists w1 c1,
    Controls.maskCatalogueFaint Matchmaker Matchmaker_catalogue
      Matchmaker_sensor_data Matchmaker_mask_catalogue rule
      computePositionErrors computeMagnitudeErrors updatePlots limit w
    = Controls.refresh_and_show Matchmaker Matchmaker_catalogue
        Matchmaker_sensor_data computePositionErrors computeMagnitudeErrors
        updatePlots w1
    /\ MainWindow.matcher _ w1 = MainWindow.IsCounselor _ c1
    /\ Paired.aligned c1
    /\ Forall (fun e => Masked.valid e = true ->
                        Catalogue.vmag (Masked.item e) <= limit)
              (Counselor.catalogue c1)
    /\ Catalogue.count_valid (Counselor.catalogue c1)
       = DotCollection.count_valid (SensorData.stars (Counselor.sensor_data c1))
    /\ Catalogue.count (Counselor.catalogue c1)
       = Catalogue.count (Counselor.catalogue c)
    /\ DotCollection.count (SensorData.stars (Counselor.sensor_data c1))
       = DotCollection.count (SensorData.stars (Counselor.sensor_data c))
    /\ MainWindow.paired _ w1 = true
    /\ MainWindow.parameters _ w1 = MainWindow.parameters _ w.
Proof.
  intros Hm Hal Hrule.
  set (mask := Controls.gt (Controls.vmag (Counselor.catalogue c) false) limit).
  assert (Ha : Paired.aligned (Counselor.mask_catalogue rule c mask))
    by (apply CounselorFacts.aligned_mask_catalogue, Hal).
  exists (MainWindow.with_matcher _ w
            (MainWindow.IsCounselor _ (Counselor.mask_catalogue rule c mask))),
         (Counselor.mask_catalogue rule c mask).
  split.
  { unfold Controls.maskCatalogueFaint, Controls.faint_mask, bind, modify. simpl.
    rewrite Hm. reflexivity. }
  split; [reflexivity|]. split; [exact Ha|]. split.
  { simpl. unfold Catalogue.set_mask. subst mask.
    unfold Controls.gt, Controls.vmag, Masked.select.
    rewrite !map_map.
    rewrite (apply_mask_pointwise
               (fun e => if Rlt_dec limit (Catalogue.vmag (Masked.item e))
                         then true else false)).
    apply List.Forall_forall. intros e He.
    apply in_map_iff in He. destruct He as (e0 & <- & _). simpl.
    destruct (Rlt_dec limit (Catalogue.vmag (Masked.item e0))) as [Hlt|Hge].
    - rewrite Hrule. discriminate.
    - intros _. lra. }
  split; [exact (CounselorFacts.aligned_balanced _ Ha)|].
  split; [apply MaskedFacts.count_apply_mask|].
  split; [apply MaskedFacts.count_apply_mask|].
  split; reflexivity.
Qed.

(** X15. [pair] on a paired window whose valid counts agree replaces the
    matcher by the culled Counselor before anything that can fail: the
    smoothers are updated, the counters shown and the plots updated on
    that window. The counters [showCounts] shows for that window are all
    the same number, the former valid count: every entry left is valid,
    on both sides, and the mode is "paired" with the magnitude tab
    enabled. *)
Theorem counters_after_pair (projection : Projection)
        (w : MainWindow.t Matchmaker) (c : Counselor.t) :
  MainWindow.matcher _ w = MainWindow.IsCounselor _ c ->
  Paired.balanced c ->
  let w1 := MainWindow.with_matcher _ w
              (MainWindow.IsCounselor _ (Counselor.pair c projection)) in
  Controls.pair Matchmaker Matchmaker_catalogue Matchmaker_sensor_data
    updatePlots Matchmaker_pair update_position_smoother
    update_magnitude_smoother projection w
  = Controls.smooth_and_show Matchmaker Matchmaker_catalogue
      Matchmaker_sensor_data updatePlots update_position_smoother
      update_magnitude_smoother w1
  /\ Controls.showCounts Matchmaker Matchmaker_catalogue Matchmaker_sensor_data w1
     = {| Controls.lb_mode := "paired";
          Controls.tab_correction_magnitudes_enabled := true;
          Controls.lb_catalogue_all := Catalogue.count_valid (Counselor.catalogue c);
          Controls.lb_catalogue_near := Catalogue.count_valid (Counselor.catalogue c);
          Controls.lb_objects_all := Catalogue.count_valid (Counselor.catalogue c);
          Controls.lb_objects_near :=
            Catalogue.count_valid (Counselor.catalogue c) |}.
Proof.
  intros Hm Hb w1. split.
  { unfold Controls.pair, bind, modify, MainWindow.Matcher_pair. simpl.
    rewrite Hm. reflexivity. }
  unfold Controls.showCounts, MainWindow.paired. simpl.
  unfold Catalogue.count_valid, DotCollection.count_valid,
         Catalogue.count, DotCollection.count, Catalogue.cull, DotCollection.cull.
  rewrite !MaskedFacts.count_valid_cull, !MaskedFacts.count_cull.
  unfold Paired.balanced, Catalogue.count_valid, DotCollection.count_valid in Hb.
  now rewrite <- Hb.
Qed.

End Masks.

Lemma maskCatalogueFaint_masks_pairs_witness :
  MainWindow.matcher _ Demo.window = MainWindow.IsCounselor _ Demo.counselor
  /\ Paired.aligned Demo.counselor
  /\ (forall v : bool, Masked.reduce v true = false)
  /\ exists w1 c1,
       Controls.maskCatalogueFaint Empty_set
         (fun m => match m with end) (fun m => match m with end)
         (fun m _ => m) Masked.reduce (ret tt) (ret tt) (ret tt) 0 Demo.window
       = Controls.refresh_and_show Empty_set
           (fun m => match m with end) (fun m => match m with end)
           (ret tt) (ret tt) (ret tt) w1
       /\ MainWindow.matcher _ w1 = MainWindow.IsCounselor _ c1
       /\ Paired.aligned c1.
Proof.
  assert (Hr : forall v : bool, Masked.reduce v true = false)
    by (intros v; destruct v; reflexivity).
  split; [reflexivity|]. split; [reflexivity|]. split; [exact Hr|].
  destruct (maskCatalogueFaint_masks_pairs Empty_set
              (fun m => match m with end) (fun m => match m with end)
              (fun m _ => m) Masked.reduce (ret tt) (ret tt) (ret tt)
              0 Demo.window Demo.counselor eq_refl eq_refl Hr)
    as (w1 & c1 & Hrun & Hm & Ha & _).
  exists w1, c1. split; [exact Hrun|]. split; [exact Hm | exact Ha].
Defined.

Lemma counters_after_pair_witness :
  MainWindow.matcher _ Demo.window = MainWindow.IsCounselor _ Demo.counselor
  /\ Paired.balanced Demo.counselor
  /\ Controls.lb_objects_all
       (Controls.showCounts Empty_set (fun m => match m with end)
          (fun m => match m with end)
          (MainWindow.with_matcher _ Demo.window
             (MainWindow.IsCounselor _
                (Counselor.pair Demo.counselor Demo.projection))))
     = 1%nat.
Proof.
  split; [reflexivity|]. split; [reflexivity|].
  rewrite (proj2 (counters_after_pair Empty_set (fun m _ => match m with end)
                    (fun m => match m with end) (fun m => match m with end)
                    (ret tt) (ret tt) (ret tt) Demo.projection
                    Demo.window Demo.counselor eq_refl eq_refl)).
  reflexivity.
Defined.

End WindowMore.

(** ** The plots *)

Module PlotFacts.

Import Py Matplotlib.

(** A radius of the chart is within its limits exactly when the angle it
    stands for is between 0 and pi / 2. *)
Lemma degrees_range (z : R) :
  0 <= z <= PI / 2 <-> 0 <= Numpy.degrees z <= 90.
Proof.
  unfold Numpy.degrees, Rdiv.
  pose proof PI_RGT_0 as Hpi.
  assert (Ht : 0 < / PI) by (apply Rinv_0_lt_compat; exact Hpi).
  assert (E : PI * / PI = 1) by (apply Rinv_r; lra).
  set (t := / PI) in *.
  split; intros [H1 H2]; split.
  - apply Rmult_le_pos; [exact H1 | nra].
  - replace 90 with ((PI * / 2) * (180 * t)) by (subst t; field; lra).
    apply Rmult_le_compat_r; [nra | exact H2].
  - apply Rmult_le_reg_r with (180 * t); [nra | lra].
  - apply Rmult_le_reg_r with (180 * t); [nra|].
    replace (PI * / 2 * (180 * t)) with 90 by (subst t; field; lra).
    exact H2.
Qed.

(** X16. [to_chart] keeps every row in its place: row (z, a) becomes the
    chart point of angle [a] and radius [z] in degrees. The point is
    within the radial limits that [add_axes] sets exactly when [z] is
    between 0 and pi / 2. *)
Theorem to_chart_rows (positions : Numpy.ndarray) (i : nat) (z a : R) :
  positions !! i = Some (z, a) ->
  BaseSkyPlot.to_chart positions !! i = Some (a, Numpy.degrees z)
  /\ length (BaseSkyPlot.to_chart positions) = length positions
  /\ (0 <= z <= PI / 2
      <-> fst BaseSkyPlot.ylim <= Numpy.degrees z <= snd BaseSkyPlot.ylim).
Proof.
  intros H. unfold BaseSkyPlot.to_chart. split; [|split].
  - rewrite list_lookup_fmap, H. reflexivity.
  - apply length_map.
  - apply degrees_range.
Qed.

Lemma to_chart_rows_witness :
  ([(PI / 4, 1)] : Numpy.ndarray) !! 0%nat = Some (PI / 4, 1)
  /\ BaseSkyPlot.to_chart [(PI / 4, 1)] !! 0%nat = Some (1, Numpy.degrees (PI / 4)).
Proof.
  split; [reflexivity|].
  exact (proj1 (to_chart_rows [(PI / 4, 1)] 0 (PI / 4) 1 eq_refl)).
Defined.


Section Sky.

Variable Colour : Type.


End Sky.


Lemma normalize_positive (limit : R) (a : Numpy.vector) :
  0 < limit -> Normalize 0 limit a = Some (map (fun v => v / limit) a).
Proof.
  intros H. unfold Normalize.
  destruct (Req_dec_T 0 limit) as [E|_]; [lra|].
  destruct (Rlt_dec limit 0) as [E|_]; [lra|].
  f_equal. apply map_ext. intros v. field. lra.
Qed.

Lemma quiver_same_length (x y u v c : Numpy.vector) (scale : option R) :
  length y = length x -> length u = length x ->
  length v = length x -> length c = length x ->
  quiver x y u v c scale
  = Some {| X := x; Y := y; U := u; V := v; C := c; scale := scale |}.
Proof.
  intros Hy Hu Hv Hc. unfold quiver.
  now rewrite Hy, Hu, Hv, Hc, !Nat.eqb_refl.
Qed.

Section Vectors.

Variable altaz_to_disk : Numpy.ndarray -> Numpy.ndarray.
Variable proj_to_disk : Numpy.ndarray -> Numpy.ndarray.

(** X18. [update_dots] of the vector plot, on as many catalogue points as
    observed points and with a positive limit: arrow [i] starts at
    catalogue point [i] of the disk and its components are the
    difference to observed point [i], so that its tip is the observed
    point; its colour value is its length divided by the limit. The
    scatter shows the catalogue points with markers of size 4. *)
Theorem update_dots_arrows (cat obs : Numpy.ndarray) (limit scale : R)
        (p : VectorErrorPlot.t) :
  length (altaz_to_disk cat) = length (proj_to_disk obs) ->
  0 < limit ->
  exists (p' : VectorErrorPlot.t) (q : Quiver),
    VectorErrorPlot.update_dots altaz_to_disk proj_to_disk cat obs limit scale p
    = (p', Return tt)
    /\ VectorErrorPlot.quiver_dots p' = Drawn q
    /\ VectorErrorPlot.scatterDots_offsets p' = altaz_to_disk cat
    /\ VectorErrorPlot.scatterDots_sizes p'
       = map (fun _ => 1 * 4) (altaz_to_disk cat)
    /\ (forall (i : nat) (cx cy ox oy : R),
           altaz_to_disk cat !! i = Some (cx, cy) ->
           proj_to_disk obs !! i = Some (ox, oy) ->
           X q !! i = Some cx /\ Y q !! i = Some cy
           /\ U q !! i = Some (ox - cx) /\ V q !! i = Some (oy - cy)
           /\ C q !! i = Some (VectorErrorPlot.hypot (ox - cx) (oy - cy) / limit)).
Proof.
  intros Hlen Hlim.
  set (dc := altaz_to_disk cat) in *. set (do := proj_to_disk obs) in *.
  set (u := Numpy.map2 Rminus (VectorErrorPlot.column0 do) (VectorErrorPlot.column0 dc)).
  set (v := Numpy.map2 Rminus (VectorErrorPlot.column1 do) (VectorErrorPlot.column1 dc)).
  set (l := Numpy.map2 VectorErrorPlot.hypot u v).
  assert (L0 : length (VectorErrorPlot.column0 do) = length (VectorErrorPlot.column0 dc))
    by (unfold VectorErrorPlot.column0; now rewrite !length_map).
  assert (L1 : length (VectorErrorPlot.column1 do) = length (VectorErrorPlot.column1 dc))
    by (unfold VectorErrorPlot.column1; now rewrite !length_map).
  assert (Lu : length u = length dc).
  { subst u. rewrite NumpyFacts.map2_length by exact L0.
    unfold VectorErrorPlot.column0. now rewrite length_map. }
  assert (Lv : length v = length dc).
  { subst v. rewrite NumpyFacts.map2_length by exact L1.
    unfold VectorErrorPlot.column1. now rewrite length_map. }
  assert (Ll : length l = length dc).
  { subst l. rewrite NumpyFacts.map2_length by congruence. exact Lu. }
  assert (Hrun :
    VectorErrorPlot.update_dots altaz_to_disk proj_to_disk cat obs limit scale p
    = (VectorErrorPlot.set_quiver_dots
         (Drawn {| X := VectorErrorPlot.column0 dc; Y := VectorErrorPlot.column1 dc;
                   U := u; V := v; C := map (fun x => x / limit) l;
                   scale := Some scale |})
         (VectorErrorPlot.set_quiver_dots
            (remove (VectorErrorPlot.quiver_dots p))
            (VectorErrorPlot.set_scatterDots dc
               (map (fun _ => 1 * 4) (VectorErrorPlot.column0 dc)) p)),
       Return tt)).
  { unfold VectorErrorPlot.update_dots. fold dc do.
    unfold bind, modify. simpl.
    rewrite (NumpyFacts.broadcast_same_length Rminus _ _ L0). simpl.
    rewrite (NumpyFacts.broadcast_same_length Rminus _ _ L1). simpl.
    fold u v.
    rewrite (NumpyFacts.broadcast_same_length VectorErrorPlot.hypot u v)
      by congruence. simpl. fold l.
    rewrite (normalize_positive limit l Hlim). simpl.
    rewrite quiver_same_length; [reflexivity| | | |];
      unfold VectorErrorPlot.column0, VectorErrorPlot.column1;
      rewrite ?length_map; congruence. }
  eexists _, _. split; [exact Hrun|]. simpl.
  split; [reflexivity|]. split; [reflexivity|]. split.
  { unfold VectorErrorPlot.column0. now rewrite map_map. }
  intros i cx cy ox oy Hc Ho.
  assert (Hc0 : VectorErrorPlot.column0 dc !! i = Some cx)
    by (unfold VectorErrorPlot.column0; now rewrite list_lookup_fmap, Hc).
  assert (Hc1 : VectorErrorPlot.column1 dc !! i = Some cy)
    by (unfold VectorErrorPlot.column1; now rewrite list_lookup_fmap, Hc).
  assert (Ho0 : VectorErrorPlot.column0 do !! i = Some ox)
    by (unfold VectorErrorPlot.column0; now rewrite list_lookup_fmap, Ho).
  assert (Ho1 : VectorErrorPlot.column1 do !! i = Some oy)
    by (unfold VectorErrorPlot.column1; now rewrite list_lookup_fmap, Ho).
  assert (Hu : u !! i = Some (ox - cx))
    by (subst u; now apply NumpyFacts.map2_lookup).
  assert (Hv : v !! i = Some (oy - cy))
    by (subst v; now apply NumpyFacts.map2_lookup).
  assert (Hl : l !! i = Some (VectorErrorPlot.hypot (ox - cx) (oy - cy)))
    by (subst l; now apply NumpyFacts.map2_lookup).
  assert (HC : map (fun x => x / limit) l !! i
               = Some (VectorErrorPlot.hypot (ox - cx) (oy - cy) / limit))
    by (rewrite list_lookup_fmap, Hl; reflexivity).
  repeat split; assumption.
Qed.

(** X19. [update_dots] of the vector plot, on numbers of catalogue points
    and of observed points that differ, neither being one: a
    [ValueError] is raised after the scatter has taken the new catalogue
    points and after the old arrows were removed, and no new arrows are
    drawn. *)
Theorem update_dots_shape_mismatch (cat obs : Numpy.ndarray) (limit scale : R)
        (p : VectorErrorPlot.t) :
  length (proj_to_disk obs) <> length (altaz_to_disk cat) ->
  length (proj_to_disk obs) <> 1%nat ->
  length (altaz_to_disk cat) <> 1%nat ->
  exists p' : VectorErrorPlot.t,
    VectorErrorPlot.update_dots altaz_to_disk proj_to_disk cat obs limit scale p
    = (p', Raise ValueError)
    /\ VectorErrorPlot.scatterDots_offsets p' = altaz_to_disk cat
    /\ VectorErrorPlot.quiver_dots p' = remove (VectorErrorPlot.quiver_dots p)
    /\ (forall q, VectorErrorPlot.quiver_dots p' <> Drawn q).
Proof.
  intros Hne Ho Hc.
  unfold VectorErrorPlot.update_dots, bind, modify. simpl.
  rewrite ErrorsMore.broadcast_mismatch;
    try (unfold VectorErrorPlot.column0; rewrite !length_map; assumption).
  simpl. eexists. split; [reflexivity|]. simpl.
  repeat split.
  intros q. destruct (VectorErrorPlot.quiver_dots p); simpl; discriminate.
Qed.

End Vectors.

Lemma update_dots_arrows_witness :
  length ((fun a => a) [(0, 0); (1, 0)] : Numpy.ndarray)
  = length ((fun a => a) [(0, 1); (1, 1)] : Numpy.ndarray)
  /\ 0 < 1
  /\ exists (p' : VectorErrorPlot.t) (q : Quiver),
       VectorErrorPlot.update_dots (fun a => a) (fun a => a)
         [(0, 0); (1, 0)] [(0, 1); (1, 1)] 1 0.05 VectorErrorPlot.add_axes
       = (p', Return tt)
       /\ VectorErrorPlot.quiver_dots p' = Drawn q.
Proof.
  assert (H : 0 < 1) by lra.
  split; [reflexivity|]. split; [exact H|].
  destruct (update_dots_arrows (fun a => a) (fun a => a)
              [(0, 0); (1, 0)] [(0, 1); (1, 1)] 1 0.05
              VectorErrorPlot.add_axes eq_refl H)
    as (p' & q & Hrun & Hq & _).
  exists p', q. split; [exact Hrun | exact Hq].
Defined.

Lemma update_dots_shape_mismatch_witness :
  length ((fun a => a) [(0, 1); (1, 1); (2, 2)] : Numpy.ndarray)
  <> length ((fun a => a) [(0, 0); (1, 0)] : Numpy.ndarray)
  /\ exists p' : VectorErrorPlot.t,
       VectorErrorPlot.update_dots (fun a => a) (fun a => a)
         [(0, 0); (1, 0)] [(0, 1); (1, 1); (2, 2)] 1 0.05 VectorErrorPlot.add_axes
       = (p', Raise ValueError).
Proof.
  assert (H : length ((fun a => a) [(0, 1); (1, 1); (2, 2)] : Numpy.ndarray)
              <> length ((fun a => a) [(0, 0); (1, 0)] : Numpy.ndarray))
    by (simpl; lia).
  split; [exact H|].
  destruct (update_dots_shape_mismatch (fun a => a) (fun a => a)
              [(0, 0); (1, 0)] [(0, 1); (1, 1); (2, 2)] 1 0.05
              VectorErrorPlot.add_axes H)
    as (p' & Hrun & _); [simpl; lia | simpl; lia |].
  exists p'. exact Hrun.
Defined.

End PlotFacts.
